(** * The non-parametric baseline benchmark: orchestration core

    A shallow embedding of [benchmark.py]: the configuration grid, the
    cache key of a parameter mapping (canonical JSON text, SHA-256, first
    eight hexadecimal digits), the per-combination trial runner with its
    file cache, the build step that flattens the grid's rows into one table,
    and the top-level decision between rebuilding and reading the table back.

    The models, the evaluator, the dataset machinery and the clock are the
    program's external collaborators; they appear as a record of functions
    ([Externals]) and every call to one of them is logged in the world's
    trace, so that "nothing was recomputed" is a statement about that trace. *)

From Stdlib Require Import ZArith List String Ascii Bool Lia.
From Stdlib Require Import DecimalString DecimalPos DecimalZ.
From stdpp Require Import base option list sorting strings gmap.

Import ListNotations.
Local Open Scope string_scope.
Local Open Scope list_scope.
Local Open Scope Z_scope.

(** ** Python strings and slices *)

Module PyStr.

(** [s[:n]] for a non-negative [n]: the first [n] characters, all of [s]
    when it is shorter. *)
Fixpoint take (n : nat) (s : string) : string :=
  match n, s with
  | O, _ => EmptyString
  | S _, EmptyString => EmptyString
  | S n', String c s' => String c (take n' s')
  end.

(** [s[:-k]] for a positive [k]: everything but the last [k] characters,
    the empty string when [s] has at most [k] of them. *)
Definition drop_last (k : nat) (s : string) : string :=
  take (String.length s - k)%nat s.

(** [sep.join(parts)]. *)
Fixpoint join (sep : string) (parts : list string) : string :=
  match parts with
  | [] => EmptyString
  | [p] => p
  | p :: rest => p +:+ sep +:+ join sep rest
  end.

(** [s.encode("utf-8")] for a string of code points below 128, one byte
    each, as integers. *)
Definition encode_utf8 (s : string) : list Z :=
  List.map (fun c => Z.of_N (N_of_ascii c)) (list_ascii_of_string s).

End PyStr.

(** ** SHA-256 (FIPS 180-4), as [hashlib.sha256(...).hexdigest()] computes it

    Words are 32-bit integers held in [Z], every addition reduced modulo
    [2^32]. *)

Module SHA256.

Definition wrap (x : Z) : Z := x mod 4294967296.
Definition add (x y : Z) : Z := wrap (x + y).
Definition rotr (n x : Z) : Z :=
  Z.lor (Z.shiftr x n) (wrap (Z.shiftl x (32 - n))).
Definition lnot32 (x : Z) : Z := Z.lxor x 4294967295.

Definition ch (x y z : Z) : Z := Z.lxor (Z.land x y) (Z.land (lnot32 x) z).
Definition maj (x y z : Z) : Z :=
  Z.lxor (Z.lxor (Z.land x y) (Z.land x z)) (Z.land y z).
Definition bsig0 (x : Z) : Z := Z.lxor (Z.lxor (rotr 2 x) (rotr 13 x)) (rotr 22 x).
Definition bsig1 (x : Z) : Z := Z.lxor (Z.lxor (rotr 6 x) (rotr 11 x)) (rotr 25 x).
Definition ssig0 (x : Z) : Z := Z.lxor (Z.lxor (rotr 7 x) (rotr 18 x)) (Z.shiftr x 3).
Definition ssig1 (x : Z) : Z := Z.lxor (Z.lxor (rotr 17 x) (rotr 19 x)) (Z.shiftr x 10).

(** The value of a lower-case hexadecimal digit. *)
Definition hex_value (c : ascii) : Z :=
  let n := Z.of_nat (nat_of_ascii c) in
  if (48 <=? n) && (n <=? 57) then n - 48
  else if (97 <=? n) && (n <=? 102) then n - 87
  else 0.

Fixpoint nibbles (s : string) : list Z :=
  match s with
  | EmptyString => []
  | String c s' => hex_value c :: nibbles s'
  end.

Fixpoint words_of_nibbles (fuel : nat) (ns : list Z) : list Z :=
  match fuel, ns with
  | S f, n0 :: n1 :: n2 :: n3 :: n4 :: n5 :: n6 :: n7 :: rest =>
      List.fold_left (fun acc n => acc * 16 + n) [n0; n1; n2; n3; n4; n5; n6; n7] 0
        :: words_of_nibbles f rest
  | _, _ => []
  end.

(** The 32-bit words written in a run of hexadecimal digits, eight digits
    each. *)
Definition words_of_hex (s : string) : list Z :=
  words_of_nibbles (String.length s) (nibbles s).

(** The sixty-four round constants, eight per line. *)
Definition round_constants : list Z :=
  List.flat_map words_of_hex
    [ "428a2f9871374491b5c0fbcfe9b5dba53956c25b59f111f1923f82a4ab1c5ed5";
      "d807aa9812835b01243185be550c7dc372be5d7480deb1fe9bdc06a7c19bf174";
      "e49b69c1efbe47860fc19dc6240ca1cc2de92c6f4a7484aa5cb0a9dc76f988da";
      "983e5152a831c66db00327c8bf597fc7c6e00bf3d5a7914706ca635114292967";
      "27b70a852e1b21384d2c6dfc53380d13650a7354766a0abb81c2c92e92722c85";
      "a2bfe8a1a81a664bc24b8b70c76c51a3d192e819d6990624f40e3585106aa070";
      "19a4c1161e376c082748774c34b0bcb5391c0cb34ed8aa4a5b9cca4f682e6ff3";
      "748f82ee78a5636f84c878148cc7020890befffaa4506cebbef9a3f7c67178f2" ].

Definition initial_hash : list Z :=
  words_of_hex "6a09e667bb67ae853c6ef372a54ff53a510e527f9b05688c1f83d9ab5be0cd19".

(** Big-endian bytes of a value, [n] of them. *)
Fixpoint be_bytes (n : nat) (x : Z) : list Z :=
  match n with
  | O => []
  | S n' => (Z.shiftr x (8 * Z.of_nat n')) mod 256 :: be_bytes n' x
  end.

(** Padding: a [0x80] byte, zero bytes up to 56 modulo 64, then the bit
    length in eight bytes. *)
Definition pad (msg : list Z) : list Z :=
  let len := Z.of_nat (List.length msg) in
  msg ++ [128] ++ List.repeat 0 (Z.to_nat ((55 - len) mod 64))
      ++ be_bytes 8 (8 * len).

Fixpoint words_of_bytes (fuel : nat) (bs : list Z) : list Z :=
  match fuel, bs with
  | S f, b0 :: b1 :: b2 :: b3 :: rest =>
      (b0 * 16777216 + b1 * 65536 + b2 * 256 + b3) :: words_of_bytes f rest
  | _, _ => []
  end.

Fixpoint blocks_of_words (fuel : nat) (ws : list Z) : list (list Z) :=
  match fuel, ws with
  | S f, _ :: _ => List.firstn 16 ws :: blocks_of_words f (List.skipn 16 ws)
  | _, _ => []
  end.

(** The message schedule, most recent word first: [rev_sched] holds
    [W(t-1); W(t-2); ...]. *)
Definition schedule_step (rev_sched : list Z) : list Z :=
  let w i := List.nth i rev_sched 0 in
  add (add (ssig1 (w 1%nat)) (w 6%nat)) (add (ssig0 (w 14%nat)) (w 15%nat))
    :: rev_sched.

Definition schedule (block : list Z) : list Z :=
  List.rev (Nat.iter 48 schedule_step (List.rev block)).

Record regs := Regs { ra : Z; rb : Z; rc : Z; rd : Z; re : Z; rf : Z; rg : Z; rh : Z }.

Definition round (r : regs) (kw : Z * Z) : regs :=
  let t1 := add (add (add (add (rh r) (bsig1 (re r))) (ch (re r) (rf r) (rg r))) (fst kw)) (snd kw) in
  let t2 := add (bsig0 (ra r)) (maj (ra r) (rb r) (rc r)) in
  Regs (add t1 t2) (ra r) (rb r) (rc r) (add (rd r) t1) (re r) (rf r) (rg r).

Definition regs_of (h : list Z) : regs :=
  let w i := List.nth i h 0 in
  Regs (w 0%nat) (w 1%nat) (w 2%nat) (w 3%nat) (w 4%nat) (w 5%nat) (w 6%nat) (w 7%nat).

Definition compress (h : list Z) (block : list Z) : list Z :=
  let r0 := regs_of h in
  let r := List.fold_left round (List.combine round_constants (schedule block)) r0 in
  [ add (ra r0) (ra r); add (rb r0) (rb r); add (rc r0) (rc r); add (rd r0) (rd r);
    add (re r0) (re r); add (rf r0) (rf r); add (rg r0) (rg r); add (rh r0) (rh r) ].

Definition digest_words (msg : list Z) : list Z :=
  let bytes := pad msg in
  let ws := words_of_bytes (List.length bytes) bytes in
  List.fold_left compress (blocks_of_words (List.length ws) ws) initial_hash.

Definition hex_digit (d : Z) : ascii :=
  List.nth (Z.to_nat d)
    (list_ascii_of_string "0123456789abcdef") "0"%char.

(** Eight lower-case hexadecimal digits of a 32-bit word. *)
Definition hex_word (x : Z) : list ascii :=
  List.map (fun i => hex_digit ((Z.shiftr x (4 * Z.of_nat i)) mod 16))
    [7; 6; 5; 4; 3; 2; 1; 0]%nat.

Definition hexdigest (msg : list Z) : string :=
  string_of_list_ascii (List.concat (List.map hex_word (digest_words msg))).

End SHA256.

(** ** Python values, dictionaries and [sorted] *)

(** A float is identified by what [float.__repr__] prints for it; no
    floating-point arithmetic is modelled. *)
Inductive pyfloat :=
| FNaN
| FInf (negative : bool)
| FFinite (repr : string).

Inductive pyvalue :=
| PNone
| PBool (b : bool)
| PInt (z : Z)
| PFloat (f : pyfloat)
| PStr (s : string).

Global Instance pyfloat_eq_dec : EqDecision pyfloat.
Proof. solve_decision. Defined.
Global Instance pyvalue_eq_dec : EqDecision pyvalue.
Proof. solve_decision. Defined.

(** A [dict] with string keys, in insertion order.  Python keeps one entry
    per key: [dict_wf] is that invariant. *)
Definition pydict := list (string * pyvalue).

Definition dict_wf (d : pydict) : Prop := NoDup (List.map fst d).

Fixpoint dict_lookup (d : pydict) (k : string) : option pyvalue :=
  match d with
  | [] => None
  | (k', v) :: d' => if String.eqb k' k then Some v else dict_lookup d' k
  end.

(** [d.get(k)]: [None] for a missing key. *)
Definition dict_get (d : pydict) (k : string) : pyvalue :=
  match dict_lookup d k with
  | Some v => v
  | None => PNone
  end.

Definition dict_keys (d : pydict) : list string := List.map fst d.

Section PySorted.
Context {A : Type} (leb : A -> A -> bool).

(** [x] goes in front of the first element it is not greater than, so
    equal elements keep their order: [sorted] is stable. *)
Fixpoint sorted_insert (x : A) (l : list A) : list A :=
  match l with
  | [] => [x]
  | y :: l' => if leb x y then x :: l else y :: sorted_insert x l'
  end.

Fixpoint py_sorted (l : list A) : list A :=
  match l with
  | [] => []
  | x :: l' => sorted_insert x (py_sorted l')
  end.
End PySorted.

(** [sorted(l, key=key)] with keys compared by [leb]. *)
Definition py_sorted_by {A K : Type} (leb : K -> K -> bool) (key : A -> K)
    (l : list A) : list A :=
  py_sorted (fun x y => leb (key x) (key y)) l.

(** [range(n)]: empty when [n <= 0]. *)
Definition py_range (n : Z) : list Z :=
  List.map Z.of_nat (List.seq 0 (Z.to_nat n)).

(** [itertools.product(xs, ys)]: the rightmost pool advances fastest. *)
Definition itt_product {A B : Type} (xs : list A) (ys : list B) : list (A * B) :=
  List.flat_map (fun x => List.map (fun y => (x, y)) ys) xs.

(** ** [json.dumps(d, sort_keys=True)] on a parameter mapping *)

Module Json.

Definition quote : ascii := "034"%char.
Definition backslash : ascii := "092"%char.

Definition hex2 (n : nat) : string :=
  String (SHA256.hex_digit (Z.of_nat (n / 16)))
    (String (SHA256.hex_digit (Z.of_nat (n mod 16))) EmptyString).

(** The encoder's [ensure_ascii] escapes, for code points below 256. *)
Definition escape_char (c : ascii) : string :=
  let n := nat_of_ascii c in
  if Ascii.eqb c quote then String backslash (String quote EmptyString)
  else if Ascii.eqb c backslash then String backslash (String backslash EmptyString)
  else if Nat.eqb n 8 then "\b"
  else if Nat.eqb n 12 then "\f"
  else if Nat.eqb n 10 then "\n"
  else if Nat.eqb n 13 then "\r"
  else if Nat.eqb n 9 then "\t"
  else if (n <? 32)%nat || (126 <? n)%nat then "\u00" +:+ hex2 n
  else String c EmptyString.

Fixpoint escape (s : string) : string :=
  match s with
  | EmptyString => EmptyString
  | String c s' => escape_char c +:+ escape s'
  end.

Definition dumps_str (s : string) : string :=
  String quote (escape s +:+ String quote EmptyString).

Definition dumps_float (f : pyfloat) : string :=
  match f with
  | FNaN => "NaN"
  | FInf false => "Infinity"
  | FInf true => "-Infinity"
  | FFinite repr => repr
  end.

Definition dumps_value (v : pyvalue) : string :=
  match v with
  | PNone => "null"
  | PBool true => "true"
  | PBool false => "false"
  | PInt z => NilZero.string_of_int (Z.to_int z)
  | PFloat f => dumps_float f
  | PStr s => dumps_str s
  end.

Definition dumps_item (kv : string * pyvalue) : string :=
  dumps_str (fst kv) +:+ ": " +:+ dumps_value (snd kv).

(** The items in key order.  A dictionary has one entry per key, so the
    order of the (key, value) pairs is the order of their keys, compared
    code point by code point. *)
Definition sorted_items (d : pydict) : list (string * pyvalue) :=
  py_sorted_by String.leb fst d.

Definition dumps_sorted (d : pydict) : string :=
  "{" +:+ PyStr.join ", " (List.map dumps_item (sorted_items d)) +:+ "}".

End Json.

(** ** The cache key of a parameter mapping

    [hashlib.sha256(json.dumps(model_kwargs, sort_keys=True).encode("utf-8")).hexdigest()[:8]] *)

Definition canonical_text (model_kwargs : pydict) : string :=
  Json.dumps_sorted model_kwargs.

Definition kwargs_hash (model_kwargs : pydict) : string :=
  PyStr.take 8 (SHA256.hexdigest (PyStr.encode_utf8 (canonical_text model_kwargs))).

(** ** The model classes and the configuration generator *)

Inductive model_cls :=
| MarginalDistributionBaseline
| SoftInverseTripleBaseline.

Global Instance model_cls_eq_dec : EqDecision model_cls.
Proof. solve_decision. Defined.

Definition cls__name__ (m : model_cls) : string :=
  match m with
  | MarginalDistributionBaseline => "MarginalDistributionBaseline"
  | SoftInverseTripleBaseline => "SoftInverseTripleBaseline"
  end.

Definition model_setting : Type := model_cls * pydict.

Definition _get_settings : list model_setting :=
  List.map
    (fun '(entity_margin, relation_margin) =>
       (MarginalDistributionBaseline,
        [("entity_margin", PBool entity_margin);
         ("relation_margin", PBool relation_margin)]))
    (itt_product [true; false] [true; false])
  ++ List.map
    (fun threshold => (SoftInverseTripleBaseline, [("threshold", threshold)]))
    [PNone; PFloat (FFinite "0.1"); PFloat (FFinite "0.3")].

(** ** Datasets, rows and the table *)

Definition triple : Type := Z * Z * Z.

Record triples_factory := {
  num_entities : Z;
  num_relations : Z;
  num_triples : Z;
  mapped_triples : list triple }.

Record dataset := {
  training : triples_factory;
  validation : option triples_factory;
  testing : triples_factory }.

(** A dataset class of the registry: its [__name__] and what
    [Dataset.triples_sort_key] returns for it. *)
Record dataset_cls := {
  ds__name__ : string;
  triples_sort_key : Z }.

Global Instance dataset_cls_eq_dec : EqDecision dataset_cls.
Proof. solve_decision. Defined.

(** One record: the flat tuple the trial runner appends. *)
Definition row : Type := list pyvalue.

Record dataframe := {
  df_columns : list string;
  df_rows : list row }.

Inductive exn := PyExc (name : string).

Definition result (A : Type) : Type := exn + A.

Definition KS : list Z := [1; 5; 10; 50; 100].

Definition METRICS : list string :=
  ["mrr"; "iamr"; "igmr"]
  ++ List.map (fun k => "hits@" +:+ NilZero.string_of_int (Z.to_int k)) KS
  ++ ["aamr"; "aamri"].

(** ** The world: files, the clock and the log of outside calls *)

Inductive event :=
| EvDataset (cls : dataset_cls)
| EvRemix (random_state : Z)
| EvModel (cls : model_cls) (kwargs : pydict)
| EvEvaluate (batch_size : Z)
| EvWrite (path text : string)
| EvPlot (test : bool).

Record world := {
  files : gmap string string;
  trace : list event;
  ticks : nat }.

(** The collaborators the core calls into, and the library functions whose
    text formats are not modelled. *)
Record Externals := {
  here : string;
  model : Type;
  metric_results : Type;
  dataset_resolver : list dataset_cls;
  resolver_lookup : string -> result dataset_cls;
  dataset_new : dataset_cls -> result dataset;
  dataset_remix : dataset -> Z -> result dataset;
  model_new : model_cls -> triples_factory -> pydict -> result model;
  evaluator_evaluate :
    list Z -> model -> list triple -> Z -> list (list triple) -> bool ->
    result metric_results;
  get_metric : metric_results -> string -> pyfloat;
  clock_reading : nat -> pyfloat;
  float_sub : pyfloat -> pyfloat -> pyfloat;
  json_dumps : list row -> string;
  json_loads : string -> result (list row);
  to_csv : dataframe -> string;
  read_csv : string -> result dataframe;
  plot : dataframe -> bool -> result unit }.

(** *** A state and exception monad over the world *)

Definition M (A : Type) : Type := world -> result A * world.

Definition ret {A : Type} (a : A) : M A := fun w => (inr a, w).

Definition raise {A : Type} (e : exn) : M A := fun w => (inl e, w).

Definition bind {A B : Type} (m : M A) (k : A -> M B) : M B :=
  fun w =>
    match m w with
    | (inl e, w') => (inl e, w')
    | (inr a, w') => k a w'
    end.

Notation "'let*' x ':=' m 'in' k" := (bind m (fun x => k))
  (at level 10, x name, m at level 100, k at level 200).
Notation "m '>>' k" := (bind m (fun _ => k))
  (at level 62, right associativity).

Definition lift {A : Type} (r : result A) : M A := fun w => (r, w).

Definition log (e : event) : M unit :=
  fun w => (inr tt, {| files := files w; trace := trace w ++ [e]; ticks := ticks w |}).

Definition path_exists (p : string) : M bool :=
  fun w => (inr (bool_decide (is_Some (files w !! p))), w).

Definition read_text (p : string) : M string :=
  fun w =>
    match files w !! p with
    | Some text => (inr text, w)
    | None => (inl (PyExc "FileNotFoundError"), w)
    end.

Definition write_text (p text : string) : M unit :=
  fun w => (inr tt, {| files := <[p := text]> (files w);
                       trace := trace w ++ [EvWrite p text];
                       ticks := ticks w |}).

(** [for x in xs: acc = body(x, acc)] *)
Fixpoint for_each {A S : Type} (xs : list A) (body : A -> S -> M S) (acc : S) : M S :=
  match xs with
  | [] => ret acc
  | x :: xs' => let* acc' := body x acc in for_each xs' body acc'
  end.

(** [process_map(func, iterable)]: one call per item, the results collected
    in input order.  The workers are run one after another in that order. *)
Fixpoint process_map {A B : Type} (func : A -> M B) (items : list A) : M (list B) :=
  match items with
  | [] => ret []
  | x :: items' =>
      let* y := func x in
      let* ys := process_map func items' in
      ret (y :: ys)
  end.

Definition joinpath (dir name : string) : string := dir +:+ "/" +:+ name.

(** [pd.DataFrame(rows, columns=columns)]: short rows are filled up with
    missing values; the widest row must have as many entries as there are
    columns, unless there is no row at all. *)
Definition pd_DataFrame (rows : list row) (columns : list string) : result dataframe :=
  let width := List.fold_right Nat.max 0%nat (List.map (@List.length pyvalue) rows) in
  if bool_decide (rows = []) || (width =? List.length columns)%nat then
    inr {| df_columns := columns;
           df_rows := List.map (fun r => r ++ List.repeat PNone (width - List.length r)) rows |}
  else inl (PyExc "ValueError").

(** [l.index(x)] *)
Fixpoint list_index {A : Type} `{EqDecision A} (x : A) (l : list A) : result nat :=
  match l with
  | [] => inl (PyExc "ValueError")
  | y :: l' =>
      if decide (y = x) then inr 0%nat
      else match list_index x l' with
           | inl e => inl e
           | inr i => inr (S i)
           end
  end.

Definition pd_isna (x : pyvalue) : bool :=
  match x with
  | PNone => true
  | PFloat FNaN => true
  | _ => false
  end.

Definition _clean (x : pyvalue) : pyvalue :=
  if bool_decide (x = PNone) || pd_isna x then PStr "" else x.

(** ** The program *)

Section Program.
Context (E : Externals).

Definition BENCHMARK_DIRECTORY : string := joinpath (here E) "results".
Definition BENCHMARK_PATH : string := joinpath BENCHMARK_DIRECTORY "results.tsv".
Definition TEST_BENCHMARK_PATH : string := joinpath BENCHMARK_DIRECTORY "test_results.tsv".
Definition RUNS_DIR : string := joinpath (here E) "runs".

Definition time_time : M pyfloat :=
  fun w => (inr (clock_reading E (ticks w)),
            {| files := files w; trace := trace w; ticks := S (ticks w) |}).

Definition _evaluate_baseline (ds : dataset) (m : model E) (batch_size : Z)
    : M (metric_results E) :=
  match validation ds with
  | None => raise (PyExc "AssertionError")
  | Some validation_factory =>
      log (EvEvaluate batch_size) >>
      lift (evaluator_evaluate E KS m
              (mapped_triples (testing ds))
              batch_size
              [mapped_triples (training ds); mapped_triples validation_factory]
              (100000 <? num_triples (training ds)))
  end.

Definition model_name_of (cls : model_cls) : string :=
  PyStr.drop_last (String.length "Baseline") (cls__name__ cls).

Definition cache_file_name (dataset_name model_name hash : string) : string :=
  dataset_name +:+ "_" +:+ model_name +:+ "_" +:+ hash +:+ ".json".

Definition cache_path (t : dataset_cls * model_setting) : string :=
  joinpath RUNS_DIR
    (cache_file_name (ds__name__ (fst t)) (model_name_of (fst (snd t)))
       (kwargs_hash (snd (snd t)))).

(** The body of the loop over [trange(trials)]. *)
Definition run_one_trial (ds : dataset) (base_record : row)
    (cls : model_cls) (model_kwargs : pydict) (model_name : string)
    (trials batch_size : Z) (kwargs_keys : list string)
    (trial : Z) (records : list row) : M (list row) :=
  let* trial_dataset :=
    if negb (trials =? 0)
    then log (EvRemix trial) >> lift (dataset_remix E ds trial)
    else ret ds in
  let* m :=
    log (EvModel cls model_kwargs) >>
    lift (model_new E cls (training trial_dataset) model_kwargs) in
  let* start_time := time_time in
  let* res := _evaluate_baseline trial_dataset m batch_size in
  let* end_time := time_time in
  let elapsed_seconds := float_sub E end_time start_time in
  ret (records ++
       [ base_record
         ++ [PInt trial; PStr model_name]
         ++ List.map (fun key => _clean (dict_get model_kwargs key)) kwargs_keys
         ++ [PFloat elapsed_seconds]
         ++ List.map (fun metric => PFloat (get_metric E res metric)) METRICS ]).

Definition _run_trials (t : dataset_cls * model_setting)
    (trials batch_size : Z) (kwargs_keys : list string) : M (list row) :=
  let '(ds_cls, (cls, model_kwargs)) := t in
  let model_name := model_name_of cls in
  let dataset_name := ds__name__ ds_cls in
  let path := cache_path t in
  let* cached := path_exists path in
  if (cached : bool) then
    let* text := read_text path in
    lift (json_loads E text)
  else
    let* ds := log (EvDataset ds_cls) >> lift (dataset_new E ds_cls) in
    let base_record :=
      [ PStr dataset_name;
        PInt (num_entities (training ds));
        PInt (num_relations (training ds));
        PInt (num_triples (training ds)) ] in
    let* records :=
      for_each (py_range trials)
        (run_one_trial ds base_record cls model_kwargs model_name
           trials batch_size kwargs_keys)
        [] in
    write_text path (json_dumps E records) >>
    ret records.

(** The dataset sequence of the build step. *)
Definition build_datasets (test : bool) : result (list dataset_cls) :=
  let datasets := py_sorted_by Z.leb triples_sort_key (dataset_resolver E) in
  if test then inr (List.firstn 5 datasets)
  else
    match resolver_lookup E "FB15k-237" with
    | inl e => inl e
    | inr cutoff =>
        match list_index cutoff datasets with
        | inl e => inl e
        | inr i => inr (List.firstn (1 + i) datasets)
        end
    end.

(** [sorted({key for _, kwargs in model_settings for key in kwargs})] *)
Definition kwargs_keys_of (model_settings : list model_setting) : list string :=
  py_sorted String.leb
    (elements (list_to_set (List.flat_map (fun s => dict_keys (snd s)) model_settings)
               : gset string)).

Definition build_columns (kwargs_keys : list string) : list string :=
  ["dataset"; "entities"; "relations"; "triples"; "trial"; "model"]
  ++ kwargs_keys ++ ["time"] ++ METRICS.

Definition _build (batch_size trials : Z) (path : string) (test : bool)
    : M dataframe :=
  let* datasets := lift (build_datasets test) in
  let model_settings := _get_settings in
  let kwargs_keys := kwargs_keys_of model_settings in
  let func := fun t => _run_trials t trials batch_size kwargs_keys in
  let* it := process_map func (itt_product datasets model_settings) in
  let rows := List.concat it in
  let columns := build_columns kwargs_keys in
  let* df := lift (pd_DataFrame rows columns) in
  write_text path (to_csv E df) >>
  ret df.



End Program.

(** ** The plot labels *)

(** [bool(x)]: a float is false when it is a zero. *)
Definition py_truthy (x : pyvalue) : bool :=
  match x with
  | PNone => false
  | PBool b => b
  | PInt z => negb (z =? 0)
  | PFloat (FFinite repr) => negb (String.eqb repr "0.0" || String.eqb repr "-0.0")
  | PFloat _ => true
  | PStr s => negb (String.eqb s "")
  end.

(** What an f-string prints for [x]. *)
Definition py_format (x : pyvalue) : string :=
  match x with
  | PNone => "None"
  | PBool true => "True"
  | PBool false => "False"
  | PInt z => NilZero.string_of_int (Z.to_int z)
  | PFloat FNaN => "nan"
  | PFloat (FInf false) => "inf"
  | PFloat (FInf true) => "-inf"
  | PFloat (FFinite repr) => repr
  | PStr s => s
  end.

Definition _relabel_model (model : string)
    (entity_margin relation_margin threshold : pyvalue) : string :=
  let rv := model in
  let rv :=
    match entity_margin with
    | PBool b => rv +:+ " " +:+ (if b then "/e" else "")
    | _ => rv
    end in
  let rv :=
    match relation_margin with
    | PBool b => rv +:+ " " +:+ (if b then "/r" else "")
    | _ => rv
    end in
  if py_truthy threshold && negb (pd_isna threshold)
  then rv +:+ " (" +:+ py_format threshold +:+ ")"
  else rv.

(** ** An invertible text format for records

    The examples need an encoder of record sequences that a decoder reads
    back; this one writes the number of the sequence in binary. *)

Module Codec.

Definition float_to_sum (f : pyfloat) : unit + bool + string :=
  match f with
  | FNaN => inl (inl tt)
  | FInf negative => inl (inr negative)
  | FFinite repr => inr repr
  end.

Definition float_of_sum (s : unit + bool + string) : pyfloat :=
  match s with
  | inl (inl _) => FNaN
  | inl (inr negative) => FInf negative
  | inr repr => FFinite repr
  end.

Global Instance pyfloat_countable : Countable pyfloat.
Proof. apply (inj_countable' float_to_sum float_of_sum). by intros []. Defined.

Definition value_to_sum (v : pyvalue) : unit + bool + Z + pyfloat + string :=
  match v with
  | PNone => inl (inl (inl (inl tt)))
  | PBool b => inl (inl (inl (inr b)))
  | PInt z => inl (inl (inr z))
  | PFloat f => inl (inr f)
  | PStr s => inr s
  end.

Definition value_of_sum (s : unit + bool + Z + pyfloat + string) : pyvalue :=
  match s with
  | inl (inl (inl (inl _))) => PNone
  | inl (inl (inl (inr b))) => PBool b
  | inl (inl (inr z)) => PInt z
  | inl (inr f) => PFloat f
  | inr s => PStr s
  end.

Global Instance pyvalue_countable : Countable pyvalue.
Proof. apply (inj_countable' value_to_sum value_of_sum). by intros []. Defined.

(** A positive number as a text of binary digits, lowest first. *)
Fixpoint text_of_pos (p : positive) : string :=
  match p with
  | xH => EmptyString
  | xO p' => String "0" (text_of_pos p')
  | xI p' => String "1" (text_of_pos p')
  end.

Fixpoint pos_of_text (s : string) : option positive :=
  match s with
  | EmptyString => Some xH
  | String c s' =>
      if Ascii.eqb c "0" then xO <$> pos_of_text s'
      else if Ascii.eqb c "1" then xI <$> pos_of_text s'
      else None
  end.

Definition dumps (rows : list row) : string := text_of_pos (encode rows).

Definition loads (text : string) : result (list row) :=
  match pos_of_text text ≫= decode with
  | Some rows => inr rows
  | None => inl (PyExc "JSONDecodeError")
  end.

End Codec.

(** ** A small run-time environment for the examples *)

Module Demo.

Definition factory (n : Z) : triples_factory :=
  {| num_entities := n; num_relations := 2; num_triples := 3 * n;
     mapped_triples := [(0, 0, 1)] |}.

Definition loaded (n : Z) : dataset :=
  {| training := factory n; validation := Some (factory 1); testing := factory 1 |}.

Definition nations : dataset_cls := {| ds__name__ := "Nations"; triples_sort_key := 1992 |}.
Definition kinships : dataset_cls := {| ds__name__ := "Kinships"; triples_sort_key := 10686 |}.
Definition fb15k237 : dataset_cls := {| ds__name__ := "FB15k237"; triples_sort_key := 310116 |}.
Definition yago : dataset_cls := {| ds__name__ := "YAGO310"; triples_sort_key := 1089040 |}.

Definition dumps_rows (rows : list row) : string :=
  PyStr.join ";" (List.map (fun r => PyStr.join "," (List.map Json.dumps_value r)) rows).

(** Every collaborator succeeds. *)
Definition E : Externals :=
  {| here := "/bench";
     model := model_cls;
     metric_results := Z;
     dataset_resolver := [kinships; yago; fb15k237; nations];
     resolver_lookup := fun name =>
       if String.eqb name "FB15k-237" then inr fb15k237 else inl (PyExc "KeyError");
     dataset_new := fun cls => inr (loaded (triples_sort_key cls));
     dataset_remix := fun ds _ => inr ds;
     model_new := fun cls _ _ => inr cls;
     evaluator_evaluate := fun _ _ _ batch_size _ _ => inr batch_size;
     get_metric := fun _ _ => FFinite "0.5";
     clock_reading := fun _ => FFinite "1.0";
     float_sub := fun _ _ => FFinite "0.0";
     json_dumps := dumps_rows;
     json_loads := fun text =>
       if String.eqb text "stale" then inr [[PStr "Nations"; PInt 14]]
       else inl (PyExc "JSONDecodeError");
     to_csv := fun df => dumps_rows (df_rows df);
     read_csv := fun _ => inr {| df_columns := []; df_rows := [] |};
     plot := fun _ _ => inr tt |}.

(** The evaluation fails from the second trial on. *)
Definition E_failing : Externals :=
  {| here := "/bench";
     model := Z;
     metric_results := Z;
     dataset_resolver := [kinships; yago; fb15k237; nations];
     resolver_lookup := fun name =>
       if String.eqb name "FB15k-237" then inr fb15k237 else inl (PyExc "KeyError");
     dataset_new := fun cls => inr (loaded (triples_sort_key cls));
     dataset_remix := fun ds _ => inr ds;
     model_new := fun _ _ _ => inr 0;
     evaluator_evaluate := fun _ _ _ _ _ _ => inl (PyExc "RuntimeError");
     get_metric := fun _ _ => FFinite "0.5";
     clock_reading := fun _ => FFinite "1.0";
     float_sub := fun _ _ => FFinite "0.0";
     json_dumps := dumps_rows;
     json_loads := fun _ => inl (PyExc "JSONDecodeError");
     to_csv := fun df => dumps_rows (df_rows df);
     read_csv := fun _ => inr {| df_columns := []; df_rows := [] |};
     plot := fun _ _ => inr tt |}.

Definition empty_world : world := {| files := ∅; trace := []; ticks := 0 |}.

Definition combination : dataset_cls * model_setting :=
  (nations, (SoftInverseTripleBaseline, [("threshold", PFloat (FFinite "0.1"))])).

(** A world whose runs directory already holds an artifact for
    [combination]. *)
Definition cached_world : world :=
  {| files := {[ cache_path E combination := "stale" ]}; trace := []; ticks := 0 |}.

(** A full build of the demo grid from an empty runs directory, two trials
    per combination. *)
Definition built : result dataframe * world :=
  _build E 2048 2 (BENCHMARK_PATH E) false empty_world.

Definition built_table : dataframe :=
  match fst built with
  | inr df => df
  | inl _ => {| df_columns := []; df_rows := [] |}
  end.

(** A world in which the results table is already there. *)
Definition results_world : world :=
  {| files := {[ BENCHMARK_PATH E := "dataset" ]}; trace := []; ticks := 0 |}.

(** As [E], with the invertible text format for the cache artifacts. *)
Definition E_codec : Externals :=
  {| here := "/bench";
     model := model_cls;
     metric_results := Z;
     dataset_resolver := [kinships; yago; fb15k237; nations];
     resolver_lookup := fun name =>
       if String.eqb name "FB15k-237" then inr fb15k237 else inl (PyExc "KeyError");
     dataset_new := fun cls => inr (loaded (triples_sort_key cls));
     dataset_remix := fun ds _ => inr ds;
     model_new := fun cls _ _ => inr cls;
     evaluator_evaluate := fun _ _ _ batch_size _ _ => inr batch_size;
     get_metric := fun _ _ => FFinite "0.5";
     clock_reading := fun _ => FFinite "1.0";
     float_sub := fun _ _ => FFinite "0.0";
     json_dumps := Codec.dumps;
     json_loads := Codec.loads;
     to_csv := fun df => dumps_rows (df_rows df);
     read_csv := fun _ => inr {| df_columns := []; df_rows := [] |};
     plot := fun _ _ => inr tt |}.

(** A first build with [E_codec] from an empty runs directory, one trial
    per combination, and the world it leaves. *)
Definition first_build : result dataframe * world :=
  _build E_codec 2048 1 (BENCHMARK_PATH E_codec) false empty_world.

Definition first_table : dataframe :=
  match fst first_build with
  | inr df => df
  | inl _ => {| df_columns := []; df_rows := [] |}
  end.

(** Every remix lacks its validation part. *)
Definition E_unvalidated : Externals :=
  {| here := "/bench";
     model := model_cls;
     metric_results := Z;
     dataset_resolver := [kinships; yago; fb15k237; nations];
     resolver_lookup := fun name =>
       if String.eqb name "FB15k-237" then inr fb15k237 else inl (PyExc "KeyError");
     dataset_new := fun cls => inr (loaded (triples_sort_key cls));
     dataset_remix := fun ds _ =>
       inr {| training := training ds; validation := None; testing := testing ds |};
     model_new := fun cls _ _ => inr cls;
     evaluator_evaluate := fun _ _ _ batch_size _ _ => inr batch_size;
     get_metric := fun _ _ => FFinite "0.5";
     clock_reading := fun _ => FFinite "1.0";
     float_sub := fun _ _ => FFinite "0.0";
     json_dumps := dumps_rows;
     json_loads := fun _ => inl (PyExc "JSONDecodeError");
     to_csv := fun df => dumps_rows (df_rows df);
     read_csv := fun _ => inr {| df_columns := []; df_rows := [] |};
     plot := fun _ _ => inr tt |}.

(** No dataset is registered. *)
Definition E_empty : Externals :=
  {| here := "/bench";
     model := model_cls;
     metric_results := Z;
     dataset_resolver := [];
     resolver_lookup := fun _ => inl (PyExc "KeyError");
     dataset_new := fun cls => inr (loaded (triples_sort_key cls));
     dataset_remix := fun ds _ => inr ds;
     model_new := fun cls _ _ => inr cls;
     evaluator_evaluate := fun _ _ _ batch_size _ _ => inr batch_size;
     get_metric := fun _ _ => FFinite "0.5";
     clock_reading := fun _ => FFinite "1.0";
     float_sub := fun _ _ => FFinite "0.0";
     json_dumps := dumps_rows;
     json_loads := fun _ => inl (PyExc "JSONDecodeError");
     to_csv := fun df => dumps_rows (df_rows df);
     read_csv := fun _ => inr {| df_columns := []; df_rows := [] |};
     plot := fun _ _ => inr tt |}.

End Demo.

(** ** Observations on a run *)

Definition is_write (e : event) : bool :=
  match e with
  | EvWrite _ _ => true
  | _ => false
  end.

(** The file writes of a trace, in order. *)
Definition writes (tr : list event) : list event := List.filter is_write tr.

(** The shape of the record of trial [trial]: the base record, the trial
    index, the model name, one cell per key of [kwargs_keys], the elapsed
    time and one cell per metric. *)
Definition trial_row (base_record : row) (model_name : string)
    (model_kwargs : pydict) (kwargs_keys : list string) (trial : Z) (r : row) : Prop :=
  exists (elapsed : pyfloat) (metrics : list pyfloat),
    List.length metrics = List.length METRICS /\
    r = base_record
        ++ [PInt trial; PStr model_name]
        ++ List.map (fun key => _clean (dict_get model_kwargs key)) kwargs_keys
        ++ [PFloat elapsed]
        ++ List.map PFloat metrics.

(** The first four cells of every record of a combination. *)
Definition base_record_of (cls : dataset_cls) (ds : dataset) : row :=
  [ PStr (ds__name__ cls);
    PInt (num_entities (training ds));
    PInt (num_relations (training ds));
    PInt (num_triples (training ds)) ].

(** [runs_in_order f items results w w']: calling [f] on the items one after
    another from world [w] succeeds every time, the i-th call returning the
    i-th result, and ends in world [w']. *)
Inductive runs_in_order {A B : Type} (f : A -> M B)
    : list A -> list B -> world -> world -> Prop :=
| runs_nil w : runs_in_order f [] [] w w
| runs_cons x xs y ys w w1 w2 :
    f x w = (inr y, w1) ->
    runs_in_order f xs ys w1 w2 ->
    runs_in_order f (x :: xs) (y :: ys) w w2.

(** *** Reading a canonical text back

    The values of a parameter mapping are scalars: [None], booleans,
    integers, floats and strings.  The text of a scalar other than a string
    has no comma and no closing brace in it, which separates it from what
    follows; the text of a string ends at its first quote that no backslash
    precedes. *)

Definition is_delim (c : ascii) : bool := Ascii.eqb c ","%char || Ascii.eqb c "}"%char.

Fixpoint delim_free (s : string) : bool :=
  match s with
  | EmptyString => true
  | String c s' => negb (is_delim c) && delim_free s'
  end.

Definition starts_with_delim (s : string) : bool :=
  match s with
  | String c _ => is_delim c
  | EmptyString => false
  end.

Definition float_char (c : ascii) : bool :=
  existsb (Ascii.eqb c) (list_ascii_of_string "0123456789.e+-").

Fixpoint all_float_chars (s : string) : bool :=
  match s with
  | EmptyString => true
  | String c s' => float_char c && all_float_chars s'
  end.

Definition int_char (c : ascii) : bool :=
  existsb (Ascii.eqb c) (list_ascii_of_string "0123456789-").

Fixpoint all_int_chars (s : string) : bool :=
  match s with
  | EmptyString => true
  | String c s' => int_char c && all_int_chars s'
  end.

Fixpoint has_point_or_exponent (s : string) : bool :=
  match s with
  | EmptyString => false
  | String c s' =>
      Ascii.eqb c "."%char || Ascii.eqb c "e"%char || has_point_or_exponent s'
  end.

(** What [repr] prints for a finite float: digits, signs, a point, an
    exponent, and at least a point or an exponent. *)
Definition float_repr_ok (s : string) : bool :=
  all_float_chars s && has_point_or_exponent s.

(** The only constraint on a value: a finite float carries a well-formed
    [repr]. *)
Definition value_ok (v : pyvalue) : bool :=
  match v with
  | PFloat (FFinite repr) => float_repr_ok repr
  | _ => true
  end.

Definition dict_values_ok (d : pydict) : Prop :=
  Forall (fun kv => value_ok (snd kv) = true) d.

Definition is_string (v : pyvalue) : bool :=
  match v with
  | PStr _ => true
  | _ => false
  end.

(** Reads one escaped character off the front of a text: the inverse of
    [Json.escape_char].  A bare quote is not an escaped character. *)
Definition unescape_head (s : string) : option (ascii * string) :=
  match s with
  | EmptyString => None
  | String c rest =>
      if Ascii.eqb c Json.quote then None
      else if Ascii.eqb c Json.backslash then
        match rest with
        | EmptyString => None
        | String t rest' =>
            if Ascii.eqb t Json.quote then Some (Json.quote, rest')
            else if Ascii.eqb t Json.backslash then Some (Json.backslash, rest')
            else if Ascii.eqb t "b"%char then Some ("008"%char, rest')
            else if Ascii.eqb t "f"%char then Some ("012"%char, rest')
            else if Ascii.eqb t "n"%char then Some ("010"%char, rest')
            else if Ascii.eqb t "r"%char then Some ("013"%char, rest')
            else if Ascii.eqb t "t"%char then Some ("009"%char, rest')
            else if Ascii.eqb t "u"%char then
              match rest' with
              | String _ (String _ (String h1 (String h0 rest''))) =>
                  Some (ascii_of_nat
                          (Z.to_nat (16 * SHA256.hex_value h1 + SHA256.hex_value h0)),
                        rest'')
              | _ => None
              end
            else None
        end
      else Some (c, rest)
  end.

(** The text of the items, up to and including the closing brace. *)
Definition items_text (l : list (string * pyvalue)) : string :=
  PyStr.join ", " (List.map Json.dumps_item l) +:+ "}".

(** What follows the text of an item. *)
Definition after_item (l : list (string * pyvalue)) : string :=
  match l with
  | [] => "}"
  | _ :: _ => ", " +:+ items_text l
  end.

(** Two different texts with the same eight-digit key. *)
Definition truncation_collision (text1 text2 : string) : Prop :=
  text1 <> text2 /\
  PyStr.take 8 (SHA256.hexdigest (PyStr.encode_utf8 text1))
  = PyStr.take 8 (SHA256.hexdigest (PyStr.encode_utf8 text2)).

(** The outside calls of trial [trial], in the order the loop body makes
    them. *)
Definition trial_calls (cls : model_cls) (model_kwargs : pydict) (batch_size : Z)
    (trial : Z) : list event :=
  [EvRemix trial; EvModel cls model_kwargs; EvEvaluate batch_size].

(** What trial [trial] evaluates: the model built on the training part of
    the remix with seed [trial], scored on the testing part of that remix,
    the training and validation triples of the remix filtered out. *)
Definition trial_evaluation (E : Externals) (ds : dataset) (cls : model_cls)
    (model_kwargs : pydict) (batch_size trial : Z) : result (metric_results E) :=
  match dataset_remix E ds trial with
  | inl e => inl e
  | inr trial_dataset =>
      match model_new E cls (training trial_dataset) model_kwargs with
      | inl e => inl e
      | inr m =>
          match validation trial_dataset with
          | None => inl (PyExc "AssertionError")
          | Some validation_factory =>
              evaluator_evaluate E KS m
                (mapped_triples (testing trial_dataset))
                batch_size
                [mapped_triples (training trial_dataset);
                 mapped_triples validation_factory]
                (100000 <? num_triples (training trial_dataset))
          end
      end
  end.

(** The record of a trial whose evaluation returned [res] and whose first
    clock reading was the one numbered [start_tick]. *)
Definition trial_record (E : Externals) (base_record : row) (model_name : string)
    (model_kwargs : pydict) (kwargs_keys : list string)
    (start_tick : nat) (trial : Z) (res : metric_results E) : row :=
  base_record
  ++ [PInt trial; PStr model_name]
  ++ List.map (fun key => _clean (dict_get model_kwargs key)) kwargs_keys
  ++ [PFloat (float_sub E (clock_reading E (S start_tick)) (clock_reading E start_tick))]
  ++ List.map (fun metric => PFloat (get_metric E res metric)) METRICS.

(** Datasets in ascending order of their sort key. *)
Definition key_le (a b : dataset_cls) : Prop :=
  triples_sort_key a <= triples_sort_key b.

(** Whether the label shows the threshold. *)
Definition threshold_shown (threshold : pyvalue) : bool :=
  py_truthy threshold && negb (pd_isna threshold).

Definition hex_char (c : ascii) : bool :=
  existsb (Ascii.eqb c) (list_ascii_of_string "0123456789abcdef").

Fixpoint all_hex (s : string) : bool :=
  match s with
  | EmptyString => true
  | String c s' => hex_char c && all_hex s'
  end.

(** ** Facts on [sorted] *)

Section PySortedFacts.
Context {A : Type} (leb : A -> A -> bool).

Lemma sorted_insert_perm x l : sorted_insert leb x l ≡ₚ x :: l.
Proof.
  induction l as [|y l IH]; simpl; [done|].
  destruct (leb x y); [done|].
  rewrite IH. apply Permutation_swap.
Qed.

Lemma py_sorted_perm l : py_sorted leb l ≡ₚ l.
Proof.
  induction l as [|x l IH]; simpl; [done|].
  rewrite sorted_insert_perm. by rewrite IH.
Qed.

Hypothesis leb_total : forall a b, leb a b = true \/ leb b a = true.

Lemma sorted_insert_Sorted x l :
  Sorted (fun a b => leb a b = true) l ->
  Sorted (fun a b => leb a b = true) (sorted_insert leb x l).
Proof.
  induction 1 as [|y l Hl IH Hhd]; simpl.
  - by repeat constructor.
  - destruct (leb x y) eqn:Hxy.
    + constructor; [by constructor | by constructor].
    + constructor; [done|].
      destruct Hhd as [|z l Hyz]; simpl.
      * constructor. destruct (leb_total x y); congruence.
      * destruct (leb x z); constructor; try done.
        destruct (leb_total x y); congruence.
Qed.

Lemma py_sorted_Sorted l : Sorted (fun a b => leb a b = true) (py_sorted leb l).
Proof.
  induction l; simpl; [constructor | by apply sorted_insert_Sorted].
Qed.
End PySortedFacts.

Lemma string_leb_trans s1 : forall s2 s3,
  String.leb s1 s2 = true -> String.leb s2 s3 = true -> String.leb s1 s3 = true.
Proof.
  unfold String.leb.
  induction s1 as [|a s1 IH]; intros [|b s2] [|c s3]; simpl; try done.
  unfold Ascii.compare.
  destruct (N.compare_spec (N_of_ascii a) (N_of_ascii b)) as [Hab|Hab|Hab];
    destruct (N.compare_spec (N_of_ascii b) (N_of_ascii c)) as [Hbc|Hbc|Hbc];
    destruct (N.compare_spec (N_of_ascii a) (N_of_ascii c)) as [Hac|Hac|Hac];
    try done; try lia.
  apply IH.
Qed.

(** ** Strings *)

Lemma string_app_nil b : "" +:+ b = b.
Proof. reflexivity. Qed.

Lemma string_app_cons x a b : String x a +:+ b = String x (a +:+ b).
Proof. reflexivity. Qed.

Lemma string_app_assoc a b c : (a +:+ b) +:+ c = a +:+ b +:+ c.
Proof.
  induction a as [|x a IH]; [done|].
  by rewrite !string_app_cons, IH.
Qed.

Lemma string_app_length a b :
  String.length (a +:+ b) = (String.length a + String.length b)%nat.
Proof.
  induction a as [|x a IH]; [done|].
  rewrite string_app_cons. simpl. by rewrite IH.
Qed.

Lemma string_app_inv_tail a : forall b s1 s2,
  String.length s1 = String.length s2 -> a +:+ s1 = b +:+ s2 -> a = b /\ s1 = s2.
Proof.
  induction a as [|c a IH]; intros [|c' b] s1 s2 Hlen H;
    rewrite ?string_app_cons, ?string_app_nil in H.
  - done.
  - subst s1. simpl in Hlen. rewrite string_app_length in Hlen. lia.
  - subst s2. simpl in Hlen. rewrite string_app_length in Hlen. lia.
  - injection H as -> H. destruct (IH _ _ _ Hlen H) as [-> ->]. done.
Qed.

Lemma take_length n : forall s,
  (n <= String.length s)%nat -> String.length (PyStr.take n s) = n.
Proof.
  induction n as [|n IH]; intros [|c s] H; simpl in *; try done; try lia.
  rewrite IH; [done|lia].
Qed.

(** ** The cache key *)

Section CacheKey.

Lemma compress_length h block : List.length (SHA256.compress h block) = 8%nat.
Proof. reflexivity. Qed.

Lemma digest_words_length msg : List.length (SHA256.digest_words msg) = 8%nat.
Proof.
  unfold SHA256.digest_words.
  generalize (SHA256.blocks_of_words
                (List.length (SHA256.words_of_bytes (List.length (SHA256.pad msg))
                                (SHA256.pad msg)))
                (SHA256.words_of_bytes (List.length (SHA256.pad msg)) (SHA256.pad msg))).
  intros blocks.
  assert (H : List.length SHA256.initial_hash = 8%nat) by reflexivity.
  revert H. generalize SHA256.initial_hash.
  induction blocks as [|b blocks IH]; intros h Hh; simpl; [done|].
  apply IH, compress_length.
Qed.

Lemma string_of_list_ascii_length l :
  String.length (string_of_list_ascii l) = List.length l.
Proof. induction l as [|c l IH]; simpl; [done | by rewrite IH]. Qed.

Lemma hexdigest_length msg : String.length (SHA256.hexdigest msg) = 64%nat.
Proof.
  unfold SHA256.hexdigest. rewrite string_of_list_ascii_length.
  pose proof (digest_words_length msg) as H.
  destruct (SHA256.digest_words msg) as [|w0 [|w1 [|w2 [|w3 [|w4 [|w5 [|w6 [|w7 [|]]]]]]]]];
    simpl in H; try lia.
  reflexivity.
Qed.

Lemma kwargs_hash_length d : String.length (kwargs_hash d) = 8%nat.
Proof. unfold kwargs_hash. apply take_length. rewrite hexdigest_length. lia. Qed.

Lemma NoDup_fmap_inj_on {A B : Type} (f : A -> B) (l : list A) x y :
  NoDup (f <$> l) -> x ∈ l -> y ∈ l -> f x = f y -> x = y.
Proof.
  induction l as [|z l IH]; intros Hnd Hx Hy Hf; [by inv Hx|].
  simpl in Hnd. apply NoDup_cons in Hnd as [Hz Hnd].
  inv Hx; inv Hy; try done.
  - exfalso. apply Hz. rewrite Hf. by apply list_elem_of_fmap_2.
  - exfalso. apply Hz. rewrite <- Hf. by apply list_elem_of_fmap_2.
  - by apply IH.
Qed.

Local Instance string_leb_transitive :
  Transitive (fun a b : string => String.leb a b = true).
Proof. intros a b c. apply string_leb_trans. Qed.

Local Instance item_key_le_trans :
  Transitive (fun a b : string * pyvalue => String.leb (fst a) (fst b) = true).
Proof. intros a b c. apply string_leb_trans. Qed.

Lemma sorted_items_Sorted d :
  Sorted (fun a b : string * pyvalue => String.leb (fst a) (fst b) = true)
    (Json.sorted_items d).
Proof.
  unfold Json.sorted_items, py_sorted_by.
  apply (py_sorted_Sorted (fun x y : string * pyvalue => String.leb (fst x) (fst y))).
  intros a b. apply String.leb_total.
Qed.

Lemma sorted_items_perm d : Json.sorted_items d ≡ₚ d.
Proof. apply py_sorted_perm. Qed.

(** The sorted items do not depend on the insertion order. *)
Lemma sorted_items_order_free d1 d2 :
  dict_wf d1 -> d1 ≡ₚ d2 -> Json.sorted_items d1 = Json.sorted_items d2.
Proof.
  intros Hwf Hperm.
  apply (Sorted_unique_strong
           (fun a b : string * pyvalue => String.leb (fst a) (fst b) = true)).
  - intros x1 x2 Hx1 Hx2 H12 H21.
    rewrite sorted_items_perm in Hx1. rewrite sorted_items_perm, <- Hperm in Hx2.
    apply (NoDup_fmap_inj_on fst d1); try done.
    by apply String.leb_antisym.
  - apply sorted_items_Sorted.
  - apply sorted_items_Sorted.
  - by rewrite !sorted_items_perm.
Qed.

Lemma dict_lookup_elem d k v :
  dict_wf d -> dict_lookup d k = Some v <-> (k, v) ∈ d.
Proof.
  unfold dict_wf. induction d as [|[k' v'] d IH]; simpl; intros Hwf.
  - split; [done | by inversion 1].
  - apply NoDup_cons in Hwf as [Hk' Hwf].
    rewrite elem_of_cons.
    destruct (String.eqb_spec k' k) as [->|Hne].
    + split.
      * intros ?; simplify_eq. by left.
      * intros [?|Hin]; [by simplify_eq|].
        exfalso. apply Hk'.
        change (List.map fst d) with (fst <$> d).
        apply (list_elem_of_fmap_2 fst) in Hin. exact Hin.
    + rewrite (IH Hwf). split; [by right|].
      intros [?|?]; [by simplify_eq|done].
Qed.

(** *** The canonical text determines the values *)

Lemma float_char_not_delim c : float_char c = true -> is_delim c = false.
Proof. destruct c as [[] [] [] [] [] [] [] []]; done. Qed.

Lemma float_char_not_quote c : float_char c = true -> c <> Json.quote.
Proof. destruct c as [[] [] [] [] [] [] [] []]; done. Qed.

Lemma int_char_float_char c : int_char c = true -> float_char c = true.
Proof. destruct c as [[] [] [] [] [] [] [] []]; done. Qed.

Lemma int_char_plain c :
  int_char c = true -> Ascii.eqb c "."%char || Ascii.eqb c "e"%char = false.
Proof. destruct c as [[] [] [] [] [] [] [] []]; done. Qed.

Lemma all_float_chars_delim_free s : all_float_chars s = true -> delim_free s = true.
Proof.
  induction s as [|c s IH]; simpl; [done|].
  intros [Hc Hs]%andb_true_iff.
  by rewrite (float_char_not_delim c Hc), IH.
Qed.

Lemma all_int_chars_float s : all_int_chars s = true -> all_float_chars s = true.
Proof.
  induction s as [|c s IH]; simpl; [done|].
  intros [Hc Hs]%andb_true_iff.
  by rewrite (int_char_float_char c Hc), IH.
Qed.

Lemma all_int_chars_no_point s :
  all_int_chars s = true -> has_point_or_exponent s = false.
Proof.
  induction s as [|c s IH]; simpl; [done|].
  intros [Hc Hs]%andb_true_iff.
  by rewrite (int_char_plain c Hc), IH.
Qed.

(** The decimal text of an integer. *)
Lemma uint_text_chars d : all_int_chars (NilEmpty.string_of_uint d) = true.
Proof. induction d; simpl; done. Qed.

Lemma int_text_chars z : all_int_chars (NilZero.string_of_int (Z.to_int z)) = true.
Proof.
  assert (Hu : forall d, all_int_chars (NilZero.string_of_uint d) = true).
  { intros d. destruct d; try apply uint_text_chars. done. }
  destruct z; simpl; [done | apply Hu |]. by rewrite Hu.
Qed.

Lemma int_text_nonempty z : NilZero.string_of_int (Z.to_int z) <> EmptyString.
Proof.
  destruct z as [|p|p]; simpl; [done| |done].
  pose proof (DecimalPos.Unsigned.to_uint_nonnil p) as Hp.
  by destruct (Pos.to_uint p).
Qed.

Lemma int_text_inj z1 z2 :
  NilZero.string_of_int (Z.to_int z1) = NilZero.string_of_int (Z.to_int z2) -> z1 = z2.
Proof.
  intros H.
  assert (Hnn : forall z, Z.to_int z <> Decimal.Pos Decimal.Nil /\
                          Z.to_int z <> Decimal.Neg Decimal.Nil).
  { intros [|p|p]; simpl; split; try done; intros [= Hp];
      by apply (DecimalPos.Unsigned.to_uint_nonnil p). }
  assert (Hi : forall z, NilZero.int_of_string (NilZero.string_of_int (Z.to_int z))
                         = Some (Z.to_int z)).
  { intros z. apply NilZero.isi; apply Hnn. }
  assert (Ht : Z.to_int z1 = Z.to_int z2).
  { pose proof (Hi z1) as H1. rewrite H, Hi in H1. by injection H1. }
  by rewrite <- (DecimalZ.of_to z1), <- (DecimalZ.of_to z2), Ht.
Qed.

(** The scalars that are not strings. *)
Lemma scalar_delim_free v :
  is_string v = false -> value_ok v = true -> delim_free (Json.dumps_value v) = true.
Proof.
  destruct v as [|[]|z|[|[]|repr]|]; simpl; try done.
  - intros _ _. apply all_float_chars_delim_free, all_int_chars_float, int_text_chars.
  - intros _ [Hc _]%andb_true_iff. by apply all_float_chars_delim_free.
Qed.

Lemma scalar_head v :
  is_string v = false -> value_ok v = true ->
  exists h t, Json.dumps_value v = String h t /\ h <> Json.quote.
Proof.
  destruct v as [|[]|z|[|[]|repr]|]; simpl; try done;
    try (intros _ _; eexists _, _; split; [reflexivity | done]).
  - intros _ _. pose proof (int_text_chars z) as Hc.
    pose proof (int_text_nonempty z) as Hne.
    destruct (NilZero.string_of_int (Z.to_int z)) as [|h t]; [done|].
    simpl in Hc. apply andb_true_iff in Hc as [Hh _].
    exists h, t. split; [done|].
    by apply float_char_not_quote, int_char_float_char.
  - intros _ [Hc Hp]%andb_true_iff. destruct repr as [|h t]; [done|].
    simpl in Hc. apply andb_true_iff in Hc as [Hh _].
    exists h, t. split; [done|]. by apply float_char_not_quote.
Qed.

Lemma scalar_inj v1 v2 :
  is_string v1 = false -> is_string v2 = false ->
  value_ok v1 = true -> value_ok v2 = true ->
  Json.dumps_value v1 = Json.dumps_value v2 -> v1 = v2.
Proof.
  assert (Hint : forall z text,
             NilZero.string_of_int (Z.to_int z) = text ->
             all_int_chars text = true /\ has_point_or_exponent text = false).
  { intros z text <-. split; [apply int_text_chars|].
    apply all_int_chars_no_point, int_text_chars. }
  destruct v1 as [|[]|z1|[|[]|r1]|], v2 as [|[]|z2|[|[]|r2]|]; simpl;
    intros Hs1 Hs2 H1 H2 H; try done;
    try (by subst);
    try (by apply Hint in H as [? ?]);
    try (by symmetry in H; apply Hint in H as [? ?]).
  - f_equal. by apply int_text_inj.
  - apply Hint in H as [_ Hp]. apply andb_true_iff in H2 as [_ H2]. congruence.
  - symmetry in H. apply Hint in H as [_ Hp].
    apply andb_true_iff in H1 as [_ H1]. congruence.
Qed.

(** Strings. *)
Lemma unescape_escape c rest :
  unescape_head (Json.escape_char c +:+ rest) = Some (c, rest).
Proof. destruct c as [[] [] [] [] [] [] [] []]; reflexivity. Qed.

Lemma escape_cons c s : Json.escape (String c s) = Json.escape_char c +:+ Json.escape s.
Proof. reflexivity. Qed.

Lemma escape_split s1 : forall s2 r1 r2,
  Json.escape s1 +:+ String Json.quote r1 = Json.escape s2 +:+ String Json.quote r2 ->
  s1 = s2 /\ r1 = r2.
Proof.
  induction s1 as [|c1 s1 IH]; intros [|c2 s2] r1 r2 H;
    rewrite ?escape_cons, ?string_app_assoc in H.
  - change (Json.escape "") with "" in H. rewrite !string_app_nil in H.
    by injection H.
  - apply (f_equal unescape_head) in H. by rewrite unescape_escape in H.
  - apply (f_equal unescape_head) in H. by rewrite unescape_escape in H.
  - apply (f_equal unescape_head) in H. rewrite !unescape_escape in H.
    injection H as -> H. by destruct (IH _ _ _ H) as [-> ->].
Qed.

Lemma dumps_str_app s rest :
  Json.dumps_str s +:+ rest = String Json.quote (Json.escape s +:+ String Json.quote rest).
Proof.
  unfold Json.dumps_str.
  by rewrite string_app_cons, string_app_assoc, string_app_cons, string_app_nil.
Qed.

Lemma split_at_delim v1 : forall v2 r1 r2,
  delim_free v1 = true -> delim_free v2 = true ->
  starts_with_delim r1 = true -> starts_with_delim r2 = true ->
  v1 +:+ r1 = v2 +:+ r2 -> v1 = v2 /\ r1 = r2.
Proof.
  induction v1 as [|c v1 IH]; intros [|c' v2] r1 r2 Hv1 Hv2 Hr1 Hr2 H;
    rewrite ?string_app_cons, ?string_app_nil in H; simpl in *.
  - done.
  - subst r1. simpl in Hr1. apply andb_true_iff in Hv2 as [Hc _].
    by rewrite Hr1 in Hc.
  - subst r2. simpl in Hr2. apply andb_true_iff in Hv1 as [Hc _].
    by rewrite Hr2 in Hc.
  - injection H as -> H.
    apply andb_true_iff in Hv1 as [_ Hv1]. apply andb_true_iff in Hv2 as [_ Hv2].
    destruct (IH _ _ _ Hv1 Hv2 Hr1 Hr2 H) as [-> ->]. done.
Qed.

(** The text of a value, followed by a comma or a closing brace, determines
    the value and what follows. *)
Lemma dumps_value_split v1 v2 r1 r2 :
  value_ok v1 = true -> value_ok v2 = true ->
  starts_with_delim r1 = true -> starts_with_delim r2 = true ->
  Json.dumps_value v1 +:+ r1 = Json.dumps_value v2 +:+ r2 ->
  v1 = v2 /\ r1 = r2.
Proof.
  intros Hv1 Hv2 Hr1 Hr2 H.
  destruct (is_string v1) eqn:Hs1, (is_string v2) eqn:Hs2.
  - destruct v1 as [| | | |s1], v2 as [| | | |s2]; try done.
    simpl in H. rewrite !dumps_str_app in H. injection H as H.
    by apply escape_split in H as [-> ->].
  - destruct v1 as [| | | |s1]; try done.
    destruct (scalar_head v2 Hs2 Hv2) as (h & t & Ht & Hh).
    simpl in H. rewrite dumps_str_app, Ht, string_app_cons in H.
    injection H as H _. by symmetry in H.
  - destruct v2 as [| | | |s2]; try done.
    destruct (scalar_head v1 Hs1 Hv1) as (h & t & Ht & Hh).
    simpl in H. rewrite dumps_str_app, Ht, string_app_cons in H.
    by injection H as H _.
  - apply split_at_delim in H as [H ->]; auto using scalar_delim_free.
    split; [|done]. by apply scalar_inj.
Qed.

Lemma items_text_cons kv l :
  items_text (kv :: l)
  = (Json.dumps_str (fst kv) +:+ ": ") +:+ Json.dumps_value (snd kv) +:+ after_item l.
Proof.
  destruct l as [|kv' l].
  - unfold items_text, after_item, Json.dumps_item. cbn [List.map PyStr.join].
    by rewrite !string_app_assoc.
  - change (items_text (kv :: kv' :: l))
      with ((Json.dumps_item kv +:+ ", "
             +:+ PyStr.join ", " (List.map Json.dumps_item (kv' :: l))) +:+ "}").
    unfold after_item, items_text, Json.dumps_item.
    by rewrite !string_app_assoc.
Qed.

Lemma after_item_starts l : starts_with_delim (after_item l) = true.
Proof. by destruct l. Qed.

Lemma items_text_inj l1 : forall l2,
  List.map fst l1 = List.map fst l2 ->
  dict_values_ok l1 -> dict_values_ok l2 ->
  items_text l1 = items_text l2 -> l1 = l2.
Proof.
  induction l1 as [|[k1 v1] l1 IH]; intros [|[k2 v2] l2] Hk Hp1 Hp2 H;
    simpl in Hk; try done.
  injection Hk as -> Hk.
  apply Forall_cons in Hp1 as [Hv1 Hp1]. apply Forall_cons in Hp2 as [Hv2 Hp2].
  simpl in Hv1, Hv2.
  rewrite !items_text_cons in H. simpl fst in H. simpl snd in H.
  apply (inj (String.append _)) in H.
  apply dumps_value_split in H as [-> Hr]; auto using after_item_starts.
  f_equal. apply IH; try done.
  destruct l1 as [|kv1 l1], l2 as [|kv2 l2]; try done.
  unfold after_item in Hr. by apply (inj (String.append _)) in Hr.
Qed.

Lemma sorted_keys_order_free d1 d2 :
  dict_keys d1 ≡ₚ dict_keys d2 ->
  List.map fst (Json.sorted_items d1) = List.map fst (Json.sorted_items d2).
Proof.
  intros Hperm.
  change (fst <$> Json.sorted_items d1 = fst <$> Json.sorted_items d2).
  apply (Sorted_unique_strong (fun a b : string => String.leb a b = true)).
  - intros x1 x2 _ _. apply String.leb_antisym.
  - eapply Sorted_fmap; [|apply sorted_items_Sorted]. done.
  - eapply Sorted_fmap; [|apply sorted_items_Sorted]. done.
  - rewrite !sorted_items_perm. exact Hperm.
Qed.

Lemma canonical_text_inj d1 d2 :
  dict_wf d1 -> dict_wf d2 -> dict_keys d1 ≡ₚ dict_keys d2 ->
  dict_values_ok d1 -> dict_values_ok d2 ->
  canonical_text d1 = canonical_text d2 ->
  forall k, dict_lookup d1 k = dict_lookup d2 k.
Proof.
  intros Hwf1 Hwf2 Hkeys Hp1 Hp2 Htext k.
  unfold canonical_text, Json.dumps_sorted in Htext.
  injection Htext as Htext.
  apply (items_text_inj (Json.sorted_items d1) (Json.sorted_items d2)) in Htext.
  - assert (Hperm : d1 ≡ₚ d2)
      by (rewrite <- (sorted_items_perm d1), <- (sorted_items_perm d2); by rewrite Htext).
    destruct (dict_lookup d1 k) as [v|] eqn:H1.
    + apply dict_lookup_elem in H1; [|done]. rewrite Hperm in H1.
      apply dict_lookup_elem in H1; done.
    + destruct (dict_lookup d2 k) as [v|] eqn:H2; [|done].
      apply dict_lookup_elem in H2; [|done]. rewrite <- Hperm in H2.
      apply dict_lookup_elem in H2; [congruence|done].
  - by apply sorted_keys_order_free.
  - unfold dict_values_ok. by rewrite sorted_items_perm.
  - unfold dict_values_ok. by rewrite sorted_items_perm.
Qed.

Lemma settings_keys_distinct :
  NoDup ((fun s : model_setting => kwargs_hash (snd s)) <$> _get_settings).
Proof. apply (bool_decide_unpack _). vm_compute. exact I. Qed.

(** C2.  The cache key has eight characters and depends on the key-value
    pairs of the mapping only, not on their order.  Two mappings over the
    same keys whose values are scalars ([None], booleans, integers, strings,
    floats with a well-formed [repr]) and that differ in the value of some
    key have different canonical texts, so their cache keys differ unless
    the two texts collide in the first eight digits of their digest; and
    the seven configurations of the program have seven different keys. *)
Theorem cache_key_deterministic :
  (forall d1 d2 : pydict,
      dict_wf d1 -> d1 ≡ₚ d2 ->
      kwargs_hash d1 = kwargs_hash d2 /\ String.length (kwargs_hash d1) = 8%nat) /\
  (forall (d1 d2 : pydict) (k : string),
      dict_wf d1 -> dict_wf d2 -> dict_keys d1 ≡ₚ dict_keys d2 ->
      dict_values_ok d1 -> dict_values_ok d2 ->
      dict_lookup d1 k <> dict_lookup d2 k ->
      canonical_text d1 <> canonical_text d2 /\
      (kwargs_hash d1 <> kwargs_hash d2 \/
       truncation_collision (canonical_text d1) (canonical_text d2))) /\
  NoDup (List.map (fun s : model_setting => kwargs_hash (snd s)) _get_settings).
Proof.
  split; [|split].
  - intros d1 d2 Hwf Hperm. split; [|apply kwargs_hash_length].
    unfold kwargs_hash, canonical_text, Json.dumps_sorted.
    by rewrite (sorted_items_order_free d1 d2).
  - intros d1 d2 k Hwf1 Hwf2 Hkeys Hp1 Hp2 Hdiff.
    assert (Htext : canonical_text d1 <> canonical_text d2).
    { intros Htext. apply Hdiff. by apply canonical_text_inj. }
    split; [done|].
    destruct (decide (kwargs_hash d1 = kwargs_hash d2)) as [Heq|Hne]; [right|by left].
    split; [done|exact Heq].
  - exact settings_keys_distinct.
Qed.

End CacheKey.

(** ** The trial runner *)

Section TrialRunner.
Context (E : Externals).


Lemma writes_snoc_write tr p text :
  writes (tr ++ [EvWrite p text]) = writes tr ++ [EvWrite p text].
Proof. unfold writes. rewrite List.filter_app. reflexivity. Qed.

Lemma run_one_trial_spec ds base cls kw name T bs keys trial records w r w' :
  run_one_trial E ds base cls kw name T bs keys trial records w = (r, w') ->
  files w' = files w /\
  (exists evs, trace w' = trace w ++ evs /\ writes evs = []) /\
  match r with
  | inr recs => exists rec, recs = records ++ [rec] /\ trial_row base name kw keys trial rec
  | inl _ => True
  end.
Proof.
  unfold run_one_trial, _evaluate_baseline, bind, log, lift, ret, raise, time_time.
  intros H.
  repeat (case_match; simplify_eq/=);
    repeat split; try done;
    try (eexists; split; [rewrite <- ?List.app_assoc; reflexivity | reflexivity]).
  all: eexists; split; [reflexivity|].
  all: eexists _, (List.map _ METRICS); split; [apply List.length_map | reflexivity].
Qed.

(** The loop over the trial indices: it touches no file, writes nothing,
    and on success has appended one record per index, in order. *)
Lemma trial_loop_spec ds base cls kw name T bs keys xs :
  forall records w r w',
    for_each xs (run_one_trial E ds base cls kw name T bs keys) records w = (r, w') ->
    files w' = files w /\
    (exists evs, trace w' = trace w ++ evs /\ writes evs = []) /\
    match r with
    | inr recs =>
        exists new, recs = records ++ new /\
                    Forall2 (trial_row base name kw keys) xs new
    | inl _ => True
    end.
Proof.
  induction xs as [|x xs IH]; intros records w r w' H.
  - simpl in H. unfold ret in H. simplify_eq. repeat split.
    + exists []. by rewrite List.app_nil_r.
    + exists []. split; [by rewrite List.app_nil_r | constructor].
  - simpl in H. unfold bind in H.
    destruct (run_one_trial E ds base cls kw name T bs keys x records w)
      as [[e|recs1] w1] eqn:H1;
      apply run_one_trial_spec in H1 as (Hf1 & (evs1 & Ht1 & Hw1) & Hr1).
    + simplify_eq. repeat split; eauto.
    + apply IH in H as (Hf2 & (evs2 & Ht2 & Hw2) & Hr2).
      destruct Hr1 as (rec & -> & Hrec).
      repeat split.
      * congruence.
      * exists (evs1 ++ evs2). split.
        -- rewrite Ht2, Ht1. by rewrite <- List.app_assoc.
        -- unfold writes in *. rewrite List.filter_app, Hw1, Hw2. done.
      * destruct r as [e|recs]; [done|].
        destruct Hr2 as (new & -> & Hnew).
        exists (rec :: new). split; [by rewrite <- List.app_assoc | by constructor].
Qed.

(** A cache hit: the decoded artifact is the result and the world is left
    as it was. *)
Lemma run_trials_hit t T bs keys w text :
  files w !! cache_path E t = Some text ->
  _run_trials E t T bs keys w = (json_loads E text, w).
Proof.
  intros Hhit. destruct t as [d [c kw]].
  unfold _run_trials, bind, path_exists, read_text, lift.
  rewrite bool_decide_eq_true_2 by (rewrite Hhit; eauto).
  cbn. by rewrite Hhit.
Qed.

(** A cache miss. *)
Lemma run_trials_miss t T bs keys w r w' :
  files w !! cache_path E t = None ->
  _run_trials E t T bs keys w = (r, w') ->
  match r with
  | inl _ =>
      files w' = files w /\
      exists evs, trace w' = trace w ++ evs /\ writes evs = []
  | inr records =>
      exists ds evs,
        dataset_new E (fst t) = inr ds /\
        Forall2 (trial_row (base_record_of (fst t) ds) (model_name_of (fst (snd t)))
                   (snd (snd t)) keys) (py_range T) records /\
        files w' = <[cache_path E t := json_dumps E records]> (files w) /\
        trace w' = trace w ++ evs ++ [EvWrite (cache_path E t) (json_dumps E records)] /\
        writes evs = []
  end.
Proof.
  intros Hmiss. destruct t as [d [c kw]].
  unfold _run_trials, bind, path_exists.
  rewrite bool_decide_eq_false_2 by (rewrite Hmiss; by intros [? ?]).
  unfold log at 1, lift at 1. simpl.
  destruct (dataset_new E d) as [e|ds] eqn:Hds.
  { intros ?; simplify_eq. simpl. split; [done|]. by exists [EvDataset d]. }
  match goal with |- context [for_each ?xs ?body ?acc ?w0] =>
    destruct (for_each xs body acc w0) as [[e|records] w1] eqn:Hloop end;
    apply trial_loop_spec in Hloop as (Hf & (evs & Ht & Hw) & Hr); simpl in *.
  - intros ?; simplify_eq. split; [done|].
    exists ([EvDataset d] ++ evs). split.
    + rewrite Ht. by rewrite <- List.app_assoc.
    + done.
  - unfold write_text, ret. intros ?; simplify_eq.
    destruct Hr as (new & -> & Hnew). simpl.
    exists ds, ([EvDataset d] ++ evs). repeat split; try done.
    + by rewrite Hf.
    + rewrite Ht. by rewrite <- !List.app_assoc.
Qed.

(** C3.  When the cache artifact of a combination exists, the trial runner
    returns exactly what decoding the artifact gives, whatever trial count
    is requested, and leaves the world as it found it: no file changes, no
    clock reading, and no dataset construction, remix, model construction
    or evaluation is logged.  Running it again, with any trial count,
    gives the same result. *)
Theorem run_trials_cache_hit t T bs keys w text :
  files w !! cache_path E t = Some text ->
  _run_trials E t T bs keys w = (json_loads E text, w) /\
  trace (snd (_run_trials E t T bs keys w)) = trace w /\
  forall T', _run_trials E t T' bs keys (snd (_run_trials E t T bs keys w))
             = _run_trials E t T bs keys w.
Proof.
  intros Hhit. rewrite (run_trials_hit t T bs keys w text Hhit). simpl.
  repeat split. intros T'. by apply run_trials_hit.
Qed.

(** C4.  Whatever raises during a run of the trial runner (the dataset
    construction, a remix, a model construction, an evaluation, the
    validation assertion, or the decoding of an existing artifact), the
    files are those from before the call and the run has written nothing.
    A successful run on a cache miss writes exactly once, as its last
    action, the encoding of all [T] records; a successful cache hit
    changes nothing. *)
Theorem run_trials_no_partial_cache t T bs keys w r w'
    (Hrun : _run_trials E t T bs keys w = (r, w')) :
  match r, files w !! cache_path E t with
  | inl _, _ => files w' = files w /\ writes (trace w') = writes (trace w)
  | inr records, Some _ => w' = w
  | inr records, None =>
      List.length records = Z.to_nat T /\
      files w' = <[cache_path E t := json_dumps E records]> (files w) /\
      exists evs,
        trace w' = trace w ++ evs ++ [EvWrite (cache_path E t) (json_dumps E records)] /\
        writes evs = []
  end.
Proof.
  destruct (files w !! cache_path E t) as [text|] eqn:Hc.
  - rewrite (run_trials_hit t T bs keys w text Hc) in Hrun. simplify_eq.
    by destruct (json_loads E text).
  - pose proof (run_trials_miss t T bs keys w r w' Hc Hrun) as H.
    destruct r as [e|records].
    + destruct H as (Hf & evs & Ht & Hw). split; [done|].
      rewrite Ht. unfold writes in *. rewrite List.filter_app, Hw.
      apply List.app_nil_r.
    + destruct H as (ds & evs & _ & Hall & Hf & Ht & Hw).
      split; [|split; [done|by exists evs]].
      apply Forall2_length in Hall. rewrite <- Hall.
      unfold py_range. by rewrite List.length_map, List.length_seq.
Qed.

(** A run that computes (cache miss, nothing raises) returns [max T 0]
    records, the i-th one carrying trial index [i]. *)
Lemma run_trials_miss_records t T bs keys w records w' :
  files w !! cache_path E t = None ->
  _run_trials E t T bs keys w = (inr records, w') ->
  List.length records = Z.to_nat T /\
  forall i r, records !! i = Some r -> r !! 4%nat = Some (PInt (Z.of_nat i)).
Proof.
  intros Hc Hrun.
  pose proof (run_trials_miss t T bs keys w _ w' Hc Hrun) as H. simpl in H.
  destruct H as (ds & evs & _ & Hall & _).
  split.
  - apply Forall2_length in Hall. rewrite <- Hall.
    unfold py_range. by rewrite List.length_map, List.length_seq.
  - intros i r Hi.
    destruct (Forall2_lookup_r _ _ _ _ _ Hall Hi) as (trial & Htrial & Hrow).
    destruct Hrow as (el & ms & _ & ->).
    unfold py_range in Htrial.
    change (List.map Z.of_nat ?l) with (Z.of_nat <$> l) in Htrial.
    rewrite list_lookup_fmap in Htrial.
    destruct (List.seq 0 (Z.to_nat T) !! i) as [j|] eqn:Hj; [|done].
    apply lookup_seq in Hj as [-> _]. simpl in Htrial. by simplify_eq.
Qed.

(** C1 (the case [T = 0]).  With a requested trial count of zero the loop
    body never runs: a computing run builds the dataset, returns no record
    at all and caches the empty sequence.  The branch that would use the
    unresampled dataset is never reached. *)
Theorem run_trials_zero_trials t bs keys w ds :
  files w !! cache_path E t = None ->
  dataset_new E (fst t) = inr ds ->
  _run_trials E t 0 bs keys w =
    (inr [],
     {| files := <[cache_path E t := json_dumps E []]> (files w);
        trace := trace w ++ [EvDataset (fst t); EvWrite (cache_path E t) (json_dumps E [])];
        ticks := ticks w |}).
Proof.
  intros Hc Hds. destruct t as [d [c kw]]. simpl in Hds.
  unfold _run_trials, bind, path_exists.
  rewrite bool_decide_eq_false_2 by (rewrite Hc; by intros [? ?]).
  unfold log, lift, write_text, ret. simpl. rewrite Hds. simpl.
  by rewrite <- List.app_assoc.
Qed.

Lemma trial_row_length cls ds name kw keys trial r :
  trial_row (base_record_of cls ds) name kw keys trial r ->
  List.length r = (6 + List.length keys + 1 + List.length METRICS)%nat.
Proof.
  intros (el & ms & Hms & ->). unfold base_record_of.
  rewrite !List.length_app, !List.length_map, Hms.
  change (List.length METRICS) with 10%nat. simpl. lia.
Qed.

Lemma kwargs_keys_of_elem (model_settings : list model_setting) key :
  In key (kwargs_keys_of model_settings) <->
  exists s, In s model_settings /\ In key (dict_keys (snd s)).
Proof.
  unfold kwargs_keys_of.
  rewrite <- list_elem_of_In, py_sorted_perm, elem_of_elements, elem_of_list_to_set,
    list_elem_of_In, List.in_flat_map.
  reflexivity.
Qed.

Lemma kwargs_keys_of_sorted (model_settings : list model_setting) :
  Sorted (fun a b => String.leb a b = true) (kwargs_keys_of model_settings) /\
  NoDup (kwargs_keys_of model_settings).
Proof.
  unfold kwargs_keys_of. split.
  - apply py_sorted_Sorted, String.leb_total.
  - rewrite py_sorted_perm. apply NoDup_elements.
Qed.

(** C7.  Every record the trial runner computes holds, after its six
    identifying cells, one cell per key of the sorted union of all
    configurations' parameter keys, in the order of that union: the cell
    for a key is the configuration's value for it, and the empty string
    when the configuration does not define the key or sets it to [None].
    Every key of every configuration is in the union. *)
Theorem run_trials_schema_complete (model_settings : list model_setting)
    t T bs w records w' :
  files w !! cache_path E t = None ->
  _run_trials E t T bs (kwargs_keys_of model_settings) w = (inr records, w') ->
  (forall s key, In s model_settings -> In key (dict_keys (snd s)) ->
                 In key (kwargs_keys_of model_settings)) /\
  Sorted (fun a b => String.leb a b = true) (kwargs_keys_of model_settings) /\
  NoDup (kwargs_keys_of model_settings) /\
  forall r, In r records ->
    List.length r
      = (6 + List.length (kwargs_keys_of model_settings) + 1 + List.length METRICS)%nat /\
    forall i key, kwargs_keys_of model_settings !! i = Some key ->
      r !! (6 + i)%nat = Some (_clean (dict_get (snd (snd t)) key)) /\
      (dict_lookup (snd (snd t)) key = None \/
       dict_lookup (snd (snd t)) key = Some PNone ->
       r !! (6 + i)%nat = Some (PStr "")).
Proof.
  intros Hc Hrun.
  split; [|split; [|split]].
  - intros s key Hs Hk. apply kwargs_keys_of_elem. eauto.
  - apply kwargs_keys_of_sorted.
  - apply kwargs_keys_of_sorted.
  - intros r Hr.
    pose proof (run_trials_miss t T bs _ w _ w' Hc Hrun) as H. simpl in H.
    destruct H as (ds & evs & _ & Hall & _).
    apply list_elem_of_In, list_elem_of_lookup in Hr as [n Hn].
    destruct (Forall2_lookup_r _ _ _ _ _ Hall Hn) as (trial & _ & Hrow).
    split; [by eapply trial_row_length|].
    destruct Hrow as (el & ms & Hms & ->).
    + intros i key Hi.
      assert (Hcell : forall (pre post : row) (f : string -> pyvalue),
                 List.length pre = 6%nat ->
                 (pre ++ List.map f (kwargs_keys_of model_settings) ++ post)
                   !! (6 + i)%nat = Some (f key)).
      { intros pre post f Hpre.
        rewrite lookup_app_r by lia. rewrite Hpre.
        replace (6 + i - 6)%nat with i by lia.
        rewrite lookup_app_l.
        - change (List.map f ?l) with (f <$> l). by rewrite list_lookup_fmap, Hi.
        - rewrite List.length_map. by eapply lookup_lt_Some. }
      unfold base_record_of.
      match goal with |- ?l !! _ = _ /\ _ =>
        assert (Hl : l !! (6 + i)%nat = Some (_clean (dict_get (snd (snd t)) key))) end.
      { apply (Hcell [_; _; _; _; _; _]). reflexivity. }
      split; [exact Hl|].
      intros Hnone. etrans; [exact Hl|]. f_equal.
      unfold dict_get. by destruct Hnone as [-> | ->].
Qed.

End TrialRunner.

(** ** The grid and the build step *)

Section Build.
Context (E : Externals).

Lemma process_map_runs {A B : Type} (f : A -> M B) items :
  forall w results w',
    process_map f items w = (inr results, w') ->
    runs_in_order f items results w w'.
Proof.
  induction items as [|x items IH]; intros w results w' H; simpl in H.
  - unfold ret in H. simplify_eq. constructor.
  - unfold bind in H.
    destruct (f x w) as [[e|y] w1] eqn:Hx; [done|].
    destruct (process_map f items w1) as [[e|ys] w2] eqn:Hxs; [done|].
    unfold ret in H. simplify_eq.
    econstructor; [exact Hx | by apply IH].
Qed.

Lemma runs_in_order_length {A B : Type} (f : A -> M B) items results w w' :
  runs_in_order f items results w w' -> List.length results = List.length items.
Proof. induction 1; simpl; congruence. Qed.

Lemma itt_product_length {A B : Type} (xs : list A) (ys : list B) :
  List.length (itt_product xs ys) = (List.length xs * List.length ys)%nat.
Proof.
  unfold itt_product. induction xs as [|x xs IH]; simpl; [done|].
  by rewrite List.length_app, List.length_map, IH.
Qed.

Lemma itt_product_lookup {A B : Type} (xs : list A) (ys : list B) :
  forall i j x y,
    xs !! i = Some x -> ys !! j = Some y ->
    itt_product xs ys !! (i * List.length ys + j)%nat = Some (x, y).
Proof.
  unfold itt_product.
  induction xs as [|x0 xs IH]; intros i j x y Hi Hj; [done|].
  simpl. destruct i as [|i]; simpl in *.
  - simplify_eq. rewrite lookup_app_l.
    + change (List.map ?f ?l) with (f <$> l). by rewrite list_lookup_fmap, Hj.
    + rewrite List.length_map. by eapply lookup_lt_Some.
  - rewrite lookup_app_r; rewrite List.length_map; [|lia].
    replace (List.length ys + i * List.length ys + j - List.length ys)%nat
      with (i * List.length ys + j)%nat by lia.
    by apply IH.
Qed.

Lemma pd_DataFrame_spec rows columns df :
  pd_DataFrame rows columns = inr df ->
  df_columns df = columns /\
  df_rows df
    = List.map (fun r => r ++ List.repeat PNone (List.length columns - List.length r)) rows.
Proof.
  unfold pd_DataFrame. intros H.
  destruct (bool_decide (rows = [])) eqn:Hnil; simpl in H.
  - apply bool_decide_eq_true_1 in Hnil. subst rows. by simplify_eq.
  - destruct (Nat.eqb_spec
                (List.fold_right Nat.max 0%nat (List.map (@List.length pyvalue) rows))
                (List.length columns)) as [Hw|Hw]; [|done].
    simplify_eq. simpl. by rewrite Hw.
Qed.

(** What a successful build has done. *)
Lemma build_success_spec bs T path test w df w' :
  _build E bs T path test w = (inr df, w') ->
  exists datasets results w1,
    build_datasets E test = inr datasets /\
    runs_in_order (fun t => _run_trials E t T bs (kwargs_keys_of _get_settings))
      (itt_product datasets _get_settings) results w w1 /\
    pd_DataFrame (List.concat results) (build_columns (kwargs_keys_of _get_settings))
      = inr df /\
    w' = {| files := <[path := to_csv E df]> (files w1);
            trace := trace w1 ++ [EvWrite path (to_csv E df)];
            ticks := ticks w1 |}.
Proof.
  unfold _build, bind, lift. intros H.
  destruct (build_datasets E test) as [e|datasets]; [done|].
  match type of H with context [process_map ?f ?g w] =>
    destruct (process_map f g w) as [[e|results] w1] eqn:Hpm; [done|] end.
  destruct (pd_DataFrame (concat results) (build_columns (kwargs_keys_of _get_settings)))
    as [e|df0] eqn:Hdf; [done|].
  unfold write_text, ret in H. simplify_eq.
  exists datasets, results, w1. repeat split; try done.
  by apply process_map_runs.
Qed.

(** C6.  The configuration generator returns seven configurations: first
    the four marginal-distribution variants, the cross product of the two
    flags in the order (T,T), (T,F), (F,T), (F,F), then the three
    soft-inverse-triple variants for the thresholds None, 0.1 and 0.3. *)
Theorem get_settings_seven :
  List.length _get_settings = 7%nat /\
  List.firstn 4 _get_settings =
    [ (MarginalDistributionBaseline,
       [("entity_margin", PBool true); ("relation_margin", PBool true)]);
      (MarginalDistributionBaseline,
       [("entity_margin", PBool true); ("relation_margin", PBool false)]);
      (MarginalDistributionBaseline,
       [("entity_margin", PBool false); ("relation_margin", PBool true)]);
      (MarginalDistributionBaseline,
       [("entity_margin", PBool false); ("relation_margin", PBool false)]) ] /\
  (forall entity_margin relation_margin : bool,
      In (MarginalDistributionBaseline,
          [("entity_margin", PBool entity_margin);
           ("relation_margin", PBool relation_margin)])
         (List.firstn 4 _get_settings)) /\
  List.skipn 4 _get_settings =
    List.map (fun threshold => (SoftInverseTripleBaseline, [("threshold", threshold)]))
      [PNone; PFloat (FFinite "0.1"); PFloat (FFinite "0.3")].
Proof.
  repeat split.
  intros [] []; simpl; tauto.
Qed.

(** C5.  The grid of the build step is the product of the dataset sequence
    and the seven configurations with the dataset as the major index: the
    combination at position [i * 7 + j] pairs the i-th dataset with the
    j-th configuration, and there are no other positions.  The dataset
    sequence is a function of the registry, the lookup of the cutoff
    dataset and the test flag alone, so equal inputs give equal grids; and
    a successful build calls the trial runner on the grid in that order
    and fills the table with the results in that order. *)
Theorem build_grid_dataset_major test datasets :
  build_datasets E test = inr datasets ->
  List.length (itt_product datasets _get_settings) = (List.length datasets * 7)%nat /\
  (forall i j d s,
      datasets !! i = Some d -> _get_settings !! j = Some s ->
      itt_product datasets _get_settings !! (i * 7 + j)%nat = Some (d, s)) /\
  (forall E' : Externals,
      dataset_resolver E' = dataset_resolver E ->
      resolver_lookup E' "FB15k-237" = resolver_lookup E "FB15k-237" ->
      build_datasets E' test = inr datasets) /\
  (forall bs T path w df w',
      _build E bs T path test w = (inr df, w') ->
      exists results w1,
        runs_in_order (fun t => _run_trials E t T bs (kwargs_keys_of _get_settings))
          (itt_product datasets _get_settings) results w w1 /\
        List.length results = List.length (itt_product datasets _get_settings) /\
        df_rows df
          = List.map (fun r => r ++ List.repeat PNone (20 - List.length r))
              (List.concat results)).
Proof.
  intros Hds. split; [|split; [|split]].
  - apply itt_product_length.
  - intros i j d s Hi Hj. by apply (itt_product_lookup datasets _get_settings).
  - intros E' Hreg Hlook. rewrite <- Hds. unfold build_datasets.
    by rewrite Hreg, Hlook.
  - intros bs T path w df w' Hb.
    apply build_success_spec in Hb as (ds' & results & w1 & Hds' & Hruns & Hdf & _).
    rewrite Hds in Hds'. simplify_eq.
    exists results, w1. split; [done|]. split.
    + by eapply runs_in_order_length.
    + by apply pd_DataFrame_spec in Hdf as [_ ->].
Qed.

Lemma in_itt_product {A B : Type} (xs : list A) (ys : list B) x y :
  In (x, y) (itt_product xs ys) <-> In x xs /\ In y ys.
Proof.
  unfold itt_product. rewrite List.in_flat_map. split.
  - intros (x' & Hx' & Hin). apply List.in_map_iff in Hin as (y' & Heq & Hy').
    by simplify_eq.
  - intros [Hx Hy]. exists x. split; [done|]. apply List.in_map_iff. eauto.
Qed.

Lemma itt_product_NoDup {A B : Type} (xs : list A) (ys : list B) :
  NoDup xs -> NoDup ys -> NoDup (itt_product xs ys).
Proof.
  intros Hxs Hys. unfold itt_product.
  induction Hxs as [|x xs Hx Hxs IH]; simpl; [constructor|].
  apply NoDup_app. split; [|split; [|exact IH]].
  - change (NoDup ((fun y => (x, y)) <$> ys)).
    apply NoDup_fmap_2_strong; [|done]. intros ?? _ _ ?. by simplify_eq.
  - intros [x' y'] Hin1 Hin2.
    apply list_elem_of_In, List.in_map_iff in Hin1 as (y0 & Heq & _). simplify_eq.
    apply list_elem_of_In, (in_itt_product xs ys) in Hin2 as [Hin2 _].
    by apply list_elem_of_In in Hin2.
Qed.

Lemma build_datasets_sublist test datasets :
  build_datasets E test = inr datasets ->
  exists n, datasets = take n (py_sorted_by Z.leb triples_sort_key (dataset_resolver E)).
Proof.
  unfold build_datasets. destruct test.
  - intros ?; simplify_eq. by exists 5%nat.
  - destruct (resolver_lookup E "FB15k-237") as [e|cutoff]; [done|].
    destruct (list_index cutoff _) as [e|i]; [done|].
    intros ?; simplify_eq. by exists (1 + i)%nat.
Qed.

Lemma build_datasets_in test datasets d :
  build_datasets E test = inr datasets -> In d datasets -> In d (dataset_resolver E).
Proof.
  intros [n ->]%build_datasets_sublist Hd.
  apply list_elem_of_In in Hd. apply list_elem_of_In.
  apply elem_of_take in Hd as (i & Hi & _).
  apply list_elem_of_lookup_2 in Hi.
  unfold py_sorted_by in Hi. by rewrite py_sorted_perm in Hi.
Qed.

Lemma build_datasets_NoDup test datasets :
  NoDup (dataset_resolver E) ->
  build_datasets E test = inr datasets -> NoDup datasets.
Proof.
  intros Hnd [n ->]%build_datasets_sublist.
  eapply sublist_NoDup; [|apply sublist_take].
  unfold py_sorted_by. by rewrite py_sorted_perm.
Qed.

(** Within the seven configurations, the file name of a combination
    determines the dataset name and the configuration. *)
Lemma cache_path_inj_on_settings d1 d2 s1 s2 :
  In s1 _get_settings -> In s2 _get_settings ->
  cache_path E (d1, s1) = cache_path E (d2, s2) ->
  ds__name__ d1 = ds__name__ d2 /\ s1 = s2.
Proof.
  intros Hs1 Hs2 H.
  unfold cache_path, joinpath, cache_file_name in H. simpl in H.
  do 2 apply (inj (String.append _)) in H.
  rewrite <- !string_app_assoc in H.
  apply string_app_inv_tail in H as [H _]; [|reflexivity].
  apply string_app_inv_tail in H as [H Hh]; [|by rewrite !kwargs_hash_length].
  assert (s1 = s2) as ->.
  { apply (NoDup_fmap_inj_on (fun s : model_setting => kwargs_hash (snd s)) _get_settings);
      [apply settings_keys_distinct | by apply list_elem_of_In.. | done]. }
  split; [|done].
  rewrite !string_app_assoc in H.
  by apply string_app_inv_tail in H as [H _].
Qed.

Lemma cache_path_inj_on_grid datasets c1 c2 :
  NoDup (List.map ds__name__ datasets) ->
  In c1 (itt_product datasets _get_settings) ->
  In c2 (itt_product datasets _get_settings) ->
  cache_path E c1 = cache_path E c2 -> c1 = c2.
Proof.
  intros Hnames Hc1 Hc2 Hp.
  destruct c1 as [d1 s1], c2 as [d2 s2].
  apply in_itt_product in Hc1 as [Hd1 Hs1]. apply in_itt_product in Hc2 as [Hd2 Hs2].
  destruct (cache_path_inj_on_settings d1 d2 s1 s2 Hs1 Hs2 Hp) as [Hname ->].
  f_equal.
  apply (NoDup_fmap_inj_on ds__name__ datasets); [done | by apply list_elem_of_In.. | done].
Qed.

Lemma build_datasets_names test datasets :
  NoDup (List.map ds__name__ (dataset_resolver E)) ->
  build_datasets E test = inr datasets ->
  NoDup (List.map ds__name__ datasets).
Proof.
  intros Hnd [n ->]%build_datasets_sublist.
  change (NoDup (ds__name__ <$> take n
                   (py_sorted_by Z.leb triples_sort_key (dataset_resolver E)))).
  eapply sublist_NoDup; [|apply fmap_sublist, sublist_take].
  unfold py_sorted_by. by rewrite py_sorted_perm.
Qed.

(** C9.  With a registry whose dataset classes have pairwise different
    names, two different combinations of the grid of a build have different
    cache paths. *)
Theorem cache_paths_distinct test datasets c1 c2 :
  NoDup (List.map ds__name__ (dataset_resolver E)) ->
  build_datasets E test = inr datasets ->
  In c1 (itt_product datasets _get_settings) ->
  In c2 (itt_product datasets _get_settings) ->
  c1 <> c2 ->
  cache_path E c1 <> cache_path E c2.
Proof.
  intros Hnames Hds Hc1 Hc2 Hne Hp. apply Hne.
  apply (cache_path_inj_on_grid datasets); try done.
  by eapply build_datasets_names.
Qed.

(** A run over combinations none of which has a cache artifact, and no two
    of which share a path: every call computes, and returns [T] records of
    full width. *)
Lemma runs_cold T bs keys items :
  forall results w w1,
    NoDup (cache_path E <$> items) ->
    (forall c, In c items -> files w !! cache_path E c = None) ->
    runs_in_order (fun t => _run_trials E t T bs keys) items results w w1 ->
    Forall (fun rs =>
              List.length rs = Z.to_nat T /\
              Forall (fun r => List.length r
                               = (6 + List.length keys + 1 + List.length METRICS)%nat) rs)
      results.
Proof.
  induction items as [|x items IH]; intros results w w1 Hnd Hcold Hruns;
    inv Hruns; [constructor|].
  apply NoDup_cons in Hnd as [Hx Hnd].
  match goal with H : _run_trials _ _ _ _ _ _ = _ |- _ => rename H into Hrun end.
  pose proof (run_trials_miss E x T bs keys w _ _ (Hcold x (or_introl eq_refl)) Hrun) as H.
  simpl in H. destruct H as (ds & evs & _ & Hall & Hf & _).
  constructor.
  - split.
    + transitivity (List.length (py_range T)); [symmetry; by eapply Forall2_length|].
      unfold py_range. by rewrite List.length_map, List.length_seq.
    + apply Forall_forall. intros r Hr.
      apply list_elem_of_lookup in Hr as [n Hn].
      destruct (Forall2_lookup_r _ _ _ _ _ Hall Hn) as (trial & _ & Hrow).
      by eapply trial_row_length.
  - eapply IH; [exact Hnd| |eassumption].
    intros c Hc. rewrite Hf, lookup_insert_ne; [apply Hcold; by right|].
    intros Heq. apply Hx. rewrite Heq.
    apply list_elem_of_fmap_2. by apply list_elem_of_In.
Qed.

Lemma length_concat_same {A : Type} (n : nat) (ls : list (list A)) :
  Forall (fun l => List.length l = n) ls ->
  List.length (List.concat ls) = (List.length ls * n)%nat.
Proof.
  induction 1 as [|l ls Hl _ IH]; simpl; [done|].
  by rewrite List.length_app, Hl, IH.
Qed.

Lemma pad_full_width (n : nat) (rows : list row) :
  Forall (fun r => List.length r = n) rows ->
  List.map (fun r => r ++ List.repeat PNone (n - List.length r)) rows = rows.
Proof.
  induction 1 as [|r rows Hr _ IH]; simpl; [done|].
  rewrite IH, Hr, Nat.sub_diag. simpl. by rewrite List.app_nil_r.
Qed.

(** C8.  The table of a successful build has the twenty columns dataset,
    entities, relations, triples, trial, model, then the sorted union of
    the parameter keys, then time, then the ten metrics; its rows are the
    rows the trial runner returned for the combinations of the grid,
    concatenated in grid order (a row shorter than the schema filled up
    with missing values); and the table is what is written to the results
    path.  When no combination of the grid has a cache artifact at the
    start and the registry's names are pairwise different, every
    combination contributes exactly [T] rows, one per trial. *)
Theorem build_table_schema bs T path test w df w' :
  _build E bs T path test w = (inr df, w') ->
  df_columns df =
    ["dataset"; "entities"; "relations"; "triples"; "trial"; "model";
     "entity_margin"; "relation_margin"; "threshold";
     "time";
     "mrr"; "iamr"; "igmr"; "hits@1"; "hits@5"; "hits@10"; "hits@50"; "hits@100";
     "aamr"; "aamri"] /\
  df_columns df =
    ["dataset"; "entities"; "relations"; "triples"; "trial"; "model"]
    ++ kwargs_keys_of _get_settings ++ ["time"] ++ METRICS /\
  exists datasets results w1,
    build_datasets E test = inr datasets /\
    runs_in_order (fun t => _run_trials E t T bs (kwargs_keys_of _get_settings))
      (itt_product datasets _get_settings) results w w1 /\
    df_rows df
      = List.map (fun r => r ++ List.repeat PNone (20 - List.length r))
          (List.concat results) /\
    files w' !! path = Some (to_csv E df) /\
    (NoDup (List.map ds__name__ (dataset_resolver E)) ->
     (forall c, In c (itt_product datasets _get_settings) ->
                files w !! cache_path E c = None) ->
     Forall (fun rs => List.length rs = Z.to_nat T) results /\
     df_rows df = List.concat results /\
     List.length (df_rows df) = (List.length datasets * 7 * Z.to_nat T)%nat).
Proof.
  intros Hb.
  apply build_success_spec in Hb as (datasets & results & w1 & Hds & Hruns & Hdf & ->).
  apply pd_DataFrame_spec in Hdf as [Hcols Hrows].
  split; [exact Hcols|]. split; [exact Hcols|].
  exists datasets, results, w1.
  split; [done|]. split; [done|]. split; [exact Hrows|].
  split; [simpl; apply lookup_insert_eq|].
  intros Hnames Hcold.
  assert (Hfull := runs_cold T bs (kwargs_keys_of _get_settings)
                     (itt_product datasets _get_settings) results w w1).
  assert (Hall : Forall (fun rs =>
                   List.length rs = Z.to_nat T /\ Forall (fun r => List.length r = 20%nat) rs)
                   results).
  { apply Hfull; [|done|done].
    apply NoDup_fmap_2_strong.
    - intros c1 c2 Hc1%list_elem_of_In Hc2%list_elem_of_In Hp.
      apply (cache_path_inj_on_grid datasets); try done.
      by eapply build_datasets_names.
    - apply itt_product_NoDup.
      + eapply build_datasets_NoDup; [|done]. by eapply NoDup_fmap_1.
      + apply (bool_decide_unpack _). vm_compute. exact I. }
  assert (Hlen : Forall (fun rs => List.length rs = Z.to_nat T) results)
    by (eapply Forall_impl; [exact Hall|]; by intros ? [? _]).
  assert (Hwidth : Forall (fun r => List.length r = 20%nat) (List.concat results)).
  { apply Forall_concat. eapply Forall_impl; [exact Hall|]. by intros ? [_ ?]. }
  assert (Hrows' : df_rows df = List.concat results).
  { rewrite Hrows. by apply (pad_full_width 20). }
  split; [done|]. split; [done|].
  rewrite Hrows', (length_concat_same (Z.to_nat T)) by done.
  erewrite runs_in_order_length by eassumption.
  by rewrite itt_product_length.
Qed.



End Build.

(** ** The theorems at work on the demo environments *)

Lemma run_trials_cache_hit_witness :
  files Demo.cached_world !! cache_path Demo.E Demo.combination = Some "stale" /\
  _run_trials Demo.E Demo.combination 3 2048 ["threshold"] Demo.cached_world
    = (inr [[PStr "Nations"; PInt 14]], Demo.cached_world).
Proof.
  assert (H : files Demo.cached_world !! cache_path Demo.E Demo.combination = Some "stale")
    by (vm_compute; reflexivity).
  split; [exact H|].
  exact (proj1 (run_trials_cache_hit Demo.E Demo.combination 3 2048 ["threshold"]
                  Demo.cached_world "stale" H)).
Defined.

Lemma run_trials_no_partial_cache_witness :
  files (snd (_run_trials Demo.E_failing Demo.combination 3 2048 ["threshold"] Demo.empty_world))
    = files Demo.empty_world /\
  writes (trace (snd (_run_trials Demo.E_failing Demo.combination 3 2048 ["threshold"]
                        Demo.empty_world)))
    = writes (trace Demo.empty_world).
Proof.
  apply (run_trials_no_partial_cache Demo.E_failing Demo.combination 3 2048 ["threshold"]
           Demo.empty_world (inl (PyExc "RuntimeError"))).
  vm_compute; reflexivity.
Defined.

Lemma run_trials_zero_trials_witness :
  fst (_run_trials Demo.E Demo.combination 0 2048 ["threshold"] Demo.empty_world) = inr [].
Proof.
  rewrite (run_trials_zero_trials Demo.E Demo.combination 2048 ["threshold"]
             Demo.empty_world (Demo.loaded 1992)).
  - reflexivity.
  - vm_compute; reflexivity.
  - reflexivity.
Defined.

Lemma run_trials_schema_complete_witness :
  files Demo.empty_world !! cache_path Demo.E Demo.combination = None /\
  Forall (fun r => r !! 6%nat = Some (PStr "") /\ r !! 8%nat = Some (PFloat (FFinite "0.1")))
    (match fst (_run_trials Demo.E Demo.combination 2 2048
                  (kwargs_keys_of _get_settings) Demo.empty_world) with
     | inr records => records
     | inl _ => []
     end).
Proof.
  assert (Hmiss : files Demo.empty_world !! cache_path Demo.E Demo.combination = None)
    by (vm_compute; reflexivity).
  split; [exact Hmiss|].
  destruct (_run_trials Demo.E Demo.combination 2 2048
              (kwargs_keys_of _get_settings) Demo.empty_world) as [[e|records] w'] eqn:Hrun;
    [constructor|].
  destruct (run_trials_schema_complete Demo.E _get_settings Demo.combination 2 2048
              Demo.empty_world records w' Hmiss Hrun) as (_ & _ & _ & Hrows).
  apply List.Forall_forall. intros r Hr.
  destruct (Hrows r Hr) as [_ Hcells].
  split.
  - apply (Hcells 0%nat "entity_margin"); [vm_compute; reflexivity | left; reflexivity].
  - apply (Hcells 2%nat "threshold"). vm_compute; reflexivity.
Defined.

Lemma cache_key_deterministic_witness :
  kwargs_hash [("entity_margin", PBool true); ("relation_margin", PBool false)]
  = kwargs_hash [("relation_margin", PBool false); ("entity_margin", PBool true)] /\
  canonical_text [("threshold", PFloat (FFinite "0.1")); ("label", PStr "a, b")]
  <> canonical_text [("label", PStr "a, b"); ("threshold", PFloat (FFinite "0.3"))].
Proof.
  destruct cache_key_deterministic as (Horder & Hvalue & _).
  split.
  - apply Horder.
    + apply (bool_decide_unpack _). vm_compute. exact I.
    + apply Permutation_swap.
  - apply (Hvalue _ _ "threshold").
    + apply (bool_decide_unpack _). vm_compute. exact I.
    + apply (bool_decide_unpack _). vm_compute. exact I.
    + apply Permutation_swap.
    + repeat constructor.
    + repeat constructor.
    + simpl. congruence.
Defined.

Lemma build_grid_dataset_major_witness :
  itt_product [Demo.nations; Demo.kinships; Demo.fb15k237] _get_settings !! 9%nat
  = Some (Demo.kinships,
          (MarginalDistributionBaseline,
           [("entity_margin", PBool false); ("relation_margin", PBool true)])).
Proof.
  assert (Hds : build_datasets Demo.E false
                = inr [Demo.nations; Demo.kinships; Demo.fb15k237])
    by (vm_compute; reflexivity).
  destruct (build_grid_dataset_major Demo.E false _ Hds) as (_ & Hpos & _).
  apply (Hpos 1%nat 2%nat); reflexivity.
Defined.

Lemma cache_paths_distinct_witness :
  cache_path Demo.E
    (Demo.nations, (SoftInverseTripleBaseline, [("threshold", PNone)]))
  <> cache_path Demo.E
    (Demo.nations, (SoftInverseTripleBaseline, [("threshold", PFloat (FFinite "0.1"))])).
Proof.
  apply (cache_paths_distinct Demo.E false [Demo.nations; Demo.kinships; Demo.fb15k237]).
  - apply (bool_decide_unpack _). vm_compute. exact I.
  - vm_compute; reflexivity.
  - apply in_itt_product. simpl. tauto.
  - apply in_itt_product. simpl. tauto.
  - congruence.
Defined.


Lemma build_table_schema_witness :
  List.length (df_rows Demo.built_table) = 42%nat.
Proof.
  assert (Hb : _build Demo.E 2048 2 (BENCHMARK_PATH Demo.E) false Demo.empty_world
               = (inr Demo.built_table, snd Demo.built))
    by (vm_compute; reflexivity).
  destruct (build_table_schema Demo.E _ _ _ _ _ _ _ Hb)
    as (_ & _ & datasets & results & w1 & Hds & _ & _ & _ & Hcold).
  clear Hb.
  assert (Hds' : build_datasets Demo.E false
                 = inr [Demo.nations; Demo.kinships; Demo.fb15k237])
    by (vm_compute; reflexivity).
  rewrite Hds' in Hds. injection Hds as <-. clear Hds'.
  destruct Hcold as (_ & _ & Hlen).
  - apply (bool_decide_unpack _). vm_compute. exact I.
  - intros c _. apply lookup_empty.
  - exact Hlen.
Defined.


(** * More of the program

    The order of the outside calls, what a run may touch in the files, the
    reuse of the cache across builds, the dataset selection, the content of
    a record and the plot labels. *)

Section TrialRunnerMore.
Context (E : Externals).

(** One successful pass through the loop body, when the requested trial
    count is not zero. *)
Lemma run_one_trial_calls ds base cls kw name T bs keys trial records w recs w' :
  T <> 0 ->
  run_one_trial E ds base cls kw name T bs keys trial records w = (inr recs, w') ->
  trace w' = trace w ++ trial_calls cls kw bs trial /\
  ticks w' = S (S (ticks w)).
Proof.
  intros HT. apply Z.eqb_neq in HT.
  unfold run_one_trial, _evaluate_baseline, bind, log, lift, ret, raise, time_time.
  rewrite HT. simpl. intros H.
  repeat (case_match; simplify_eq/=).
  split; [|done]. by rewrite <- !List.app_assoc.
Qed.

Lemma trial_loop_calls ds base cls kw name T bs keys xs :
  T <> 0 ->
  forall records w recs w',
    for_each xs (run_one_trial E ds base cls kw name T bs keys) records w = (inr recs, w') ->
    trace w' = trace w ++ List.flat_map (trial_calls cls kw bs) xs /\
    ticks w' = (ticks w + 2 * List.length xs)%nat.
Proof.
  intros HT. induction xs as [|x xs IH]; intros records w recs w' H; simpl in H.
  - unfold ret in H. simplify_eq. simpl. split; [by rewrite List.app_nil_r | lia].
  - unfold bind in H.
    destruct (run_one_trial E ds base cls kw name T bs keys x records w)
      as [[e|recs1] w1] eqn:H1; [done|].
    apply run_one_trial_calls in H1 as [Ht1 Hk1]; [|done].
    apply IH in H as [Ht Hk].
    split.
    + rewrite Ht, Ht1. cbn [List.flat_map]. by rewrite <- !List.app_assoc.
    + rewrite Hk, Hk1. simpl. lia.
Qed.

Lemma py_range_nonpos T : T <= 0 -> py_range T = [].
Proof. intros H. unfold py_range. by replace (Z.to_nat T) with 0%nat by lia. Qed.

(** X2.  A run that computes makes its outside calls in a fixed order: the
    dataset construction, then for each trial index 0, 1, ..., T-1 the
    remix with that index as seed, the model construction and the
    evaluation, and last the write of the artifact.  The clock is read
    twice per trial. *)
Theorem run_trials_call_sequence t T bs keys w records w' :
  files w !! cache_path E t = None ->
  _run_trials E t T bs keys w = (inr records, w') ->
  trace w' = trace w
             ++ [EvDataset (fst t)]
             ++ List.flat_map (trial_calls (fst (snd t)) (snd (snd t)) bs) (py_range T)
             ++ [EvWrite (cache_path E t) (json_dumps E records)] /\
  ticks w' = (ticks w + 2 * Z.to_nat T)%nat.
Proof.
  intros Hmiss. destruct t as [d [c kw]].
  unfold _run_trials, bind, path_exists.
  rewrite bool_decide_eq_false_2 by (rewrite Hmiss; by intros [? ?]).
  unfold log at 1, lift at 1. simpl.
  destruct (dataset_new E d) as [e|ds] eqn:Hds; [done|].
  match goal with |- context [for_each ?xs ?body ?acc ?w0] =>
    destruct (for_each xs body acc w0) as [[e|recs] w1] eqn:Hloop end; [done|].
  unfold write_text, ret. intros ?; simplify_eq. simpl.
  destruct (Z_le_gt_dec T 0) as [HT|HT].
  - rewrite py_range_nonpos in Hloop |- * by done. simpl in Hloop.
    unfold ret in Hloop. simplify_eq. simpl.
    split; [by rewrite <- List.app_assoc|]. replace (Z.to_nat T) with 0%nat by lia. lia.
  - apply trial_loop_calls in Hloop as [Ht Hk]; [|lia]. simpl in Ht, Hk.
    split.
    + rewrite Ht. by rewrite <- !List.app_assoc.
    + rewrite Hk. unfold py_range. rewrite List.length_map, List.length_seq. lia.
Qed.

Lemma run_trials_files t T bs keys w r w' :
  _run_trials E t T bs keys w = (r, w') ->
  files w' = files w \/
  (files w !! cache_path E t = None /\
   exists text, files w' = <[cache_path E t := text]> (files w)).
Proof.
  intros Hrun.
  destruct (files w !! cache_path E t) as [text|] eqn:Hc.
  - rewrite (run_trials_hit E t T bs keys w text Hc) in Hrun. left. by simplify_eq.
  - pose proof (run_trials_miss E t T bs keys w r w' Hc Hrun) as H.
    destruct r as [e|records].
    + left. by destruct H.
    + right. split; [done|]. destruct H as (ds & evs & _ & _ & Hf & _). eauto.
Qed.

(** X1.  Whatever its outcome, a run of the trial runner loses and changes
    no file that was there, and leaves every path other than the
    combination's own cache path as it was. *)
Theorem run_trials_frame t T bs keys w r w' :
  _run_trials E t T bs keys w = (r, w') ->
  files w ⊆ files w' /\
  forall p, p <> cache_path E t -> files w' !! p = files w !! p.
Proof.
  intros [->|[Hc [text ->]]]%run_trials_files.
  - done.
  - split; [by apply insert_subseteq|].
    intros p Hp. by rewrite lookup_insert_ne.
Qed.

Lemma py_range_pos T : 1 <= T -> exists rest, py_range T = 0 :: rest.
Proof.
  intros H. unfold py_range.
  destruct (Z.to_nat T) as [|n] eqn:Hn; [lia|].
  simpl. eauto.
Qed.

(** X3.  When the first remix has no validation part, a computing run
    with at least one trial raises the assertion error after the remix and
    the model construction: the evaluator is not called, the clock has been
    read once and no file is written. *)
Theorem run_trials_missing_validation t T bs keys w ds ds0 m :
  files w !! cache_path E t = None ->
  1 <= T ->
  dataset_new E (fst t) = inr ds ->
  dataset_remix E ds 0 = inr ds0 ->
  validation ds0 = None ->
  model_new E (fst (snd t)) (training ds0) (snd (snd t)) = inr m ->
  _run_trials E t T bs keys w =
    (inl (PyExc "AssertionError"),
     {| files := files w;
        trace := trace w ++ [EvDataset (fst t); EvRemix 0;
                             EvModel (fst (snd t)) (snd (snd t))];
        ticks := S (ticks w) |}).
Proof.
  intros Hmiss HT Hds Hremix Hval Hm. destruct t as [d [c kw]]. simpl in *.
  destruct (py_range_pos T HT) as [rest Hrange].
  assert (HT0 : (T =? 0) = false) by (apply Z.eqb_neq; lia).
  unfold _run_trials, bind, path_exists.
  rewrite bool_decide_eq_false_2 by (rewrite Hmiss; by intros [? ?]).
  unfold log at 1, lift at 1. simpl. rewrite Hds, Hrange. simpl.
  unfold bind, run_one_trial, bind, log, lift, time_time, _evaluate_baseline, raise.
  rewrite HT0. simpl. rewrite Hremix. simpl. rewrite Hm. simpl. rewrite Hval.
  by rewrite <- !List.app_assoc.
Qed.

(** X4.  A requested trial count that is zero or negative makes a
    computing run return no record and cache the empty sequence, after
    constructing the dataset and nothing else. *)
Theorem run_trials_nonpositive_trials t T bs keys w ds :
  T <= 0 ->
  files w !! cache_path E t = None ->
  dataset_new E (fst t) = inr ds ->
  _run_trials E t T bs keys w =
    (inr [],
     {| files := <[cache_path E t := json_dumps E []]> (files w);
        trace := trace w ++ [EvDataset (fst t); EvWrite (cache_path E t) (json_dumps E [])];
        ticks := ticks w |}).
Proof.
  intros HT Hc Hds. destruct t as [d [c kw]]. simpl in Hds.
  unfold _run_trials, bind, path_exists.
  rewrite bool_decide_eq_false_2 by (rewrite Hc; by intros [? ?]).
  unfold log, lift, write_text, ret. simpl. rewrite Hds, py_range_nonpos by done. simpl.
  by rewrite <- List.app_assoc.
Qed.

End TrialRunnerMore.

Section BuildMore.
Context (E : Externals).

Lemma process_map_files T bs keys items :
  forall w r w',
    process_map (fun t => _run_trials E t T bs keys) items w = (r, w') ->
    files w ⊆ files w' /\
    forall p, (forall c, In c items -> p <> cache_path E c) ->
              files w' !! p = files w !! p.
Proof.
  induction items as [|x items IH]; intros w r w' H; simpl in H.
  - unfold ret in H. by simplify_eq.
  - unfold bind in H.
    destruct (_run_trials E x T bs keys w) as [[e|y] w1] eqn:Hx.
    + simplify_eq.
      apply run_trials_files in Hx as [->|[Hc [text ->]]]; [done|].
      split; [by apply insert_subseteq|].
      intros p Hp. rewrite lookup_insert_ne; [done|]. intros <-. by eapply Hp; [left|].
    + destruct (process_map (fun t => _run_trials E t T bs keys) items w1)
        as [[e|ys] w2] eqn:Hxs; unfold ret in H; simplify_eq;
        apply IH in Hxs as [Hsub Hframe];
        apply run_trials_files in Hx as [Hf|[Hc [text Hf]]]; rewrite Hf in *.
      all: split; [try done; try (etrans; [by apply insert_subseteq|done]) |].
      all: intros p Hp; rewrite Hframe by (intros c Hc'; apply Hp; by right).
      all: try done.
      all: rewrite lookup_insert_ne; [done|]; intros <-; by eapply Hp; [left|].
Qed.


(** X5.  A build that raises has lost and changed no file that was there;
    the only paths that may differ afterwards are cache paths, so the
    results table is as before. *)
Theorem build_failure_adds_artifacts_only bs T path test w e w' :
  _build E bs T path test w = (inl e, w') ->
  files w ⊆ files w' /\
  forall p, (forall c, p <> cache_path E c) -> files w' !! p = files w !! p.
Proof.
  unfold _build, bind, lift. intros H.
  destruct (build_datasets E test) as [e0|datasets]; [by simplify_eq|].
  match type of H with context [process_map ?f ?g w] =>
    destruct (process_map f g w) as [[e0|results] w1] eqn:Hpm end;
    apply process_map_files in Hpm as [Hsub Hframe].
  - simplify_eq. split; [done|]. intros p Hp. by apply Hframe.
  - destruct (pd_DataFrame _ _) as [e0|df]; unfold write_text, ret in H; [|done].
    simplify_eq. split; [done|]. intros p Hp. by apply Hframe.
Qed.

(** X6.  The results table, the test results table and the cache
    artifacts live at different paths: the two tables differ, and no
    combination's cache path is either of them. *)
Theorem results_paths_apart :
  BENCHMARK_PATH E <> TEST_BENCHMARK_PATH E /\
  forall t, cache_path E t <> BENCHMARK_PATH E /\ cache_path E t <> TEST_BENCHMARK_PATH E.
Proof.
  unfold BENCHMARK_PATH, TEST_BENCHMARK_PATH, BENCHMARK_DIRECTORY, cache_path, RUNS_DIR,
    joinpath.
  split; [|intros t; split]; intros H;
    rewrite ?string_app_assoc in H;
    apply (inj (String.append _)) in H;
    rewrite ?string_app_cons, ?string_app_nil in H; done.
Qed.

Lemma cache_path_not_results t :
  cache_path E t <> BENCHMARK_PATH E /\ cache_path E t <> TEST_BENCHMARK_PATH E.
Proof.
  unfold BENCHMARK_PATH, TEST_BENCHMARK_PATH, BENCHMARK_DIRECTORY, cache_path, RUNS_DIR,
    joinpath.
  split; intros H;
    rewrite ?string_app_assoc in H;
    apply (inj (String.append _)) in H;
    rewrite ?string_app_cons, ?string_app_nil in H; done.
Qed.




(** X18.  With an empty registry the build in test mode succeeds with a
    table of the twenty columns and no row, which it writes; outside test
    mode it raises before doing anything. *)
Theorem build_empty_registry bs T path w :
  dataset_resolver E = [] ->
  _build E bs T path true w =
    (inr {| df_columns := build_columns (kwargs_keys_of _get_settings); df_rows := [] |},
     {| files := <[path := to_csv E {| df_columns := build_columns (kwargs_keys_of _get_settings);
                                       df_rows := [] |}]> (files w);
        trace := trace w ++ [EvWrite path (to_csv E {| df_columns := build_columns (kwargs_keys_of _get_settings);
                                                       df_rows := [] |})];
        ticks := ticks w |}) /\
  exists e, _build E bs T path false w = (inl e, w).
Proof.
  intros Hreg. unfold _build, build_datasets, bind, lift. rewrite Hreg. simpl. split.
  - reflexivity.
  - destruct (resolver_lookup E "FB15k-237") as [e|cutoff]; simpl; eauto.
Qed.

End BuildMore.

Section CacheReuse.
Context (E : Externals).

(** With an artifact for every item, the calls are all cache hits: the
    world stays as it is and the trial count plays no part. *)
Lemma process_map_warm bs keys items w :
  (forall c, In c items -> is_Some (files w !! cache_path E c)) ->
  forall T T',
    process_map (fun t => _run_trials E t T bs keys) items w
    = process_map (fun t => _run_trials E t T' bs keys) items w /\
    snd (process_map (fun t => _run_trials E t T bs keys) items w) = w.
Proof.
  induction items as [|x items IH]; intros Hwarm T T'; simpl; [done|].
  destruct (Hwarm x (or_introl eq_refl)) as [text Hx].
  unfold bind.
  rewrite (run_trials_hit E x T bs keys w text Hx),
          (run_trials_hit E x T' bs keys w text Hx).
  destruct (json_loads E text) as [e|y]; [done|].
  destruct (IH (fun c Hc => Hwarm c (or_intror Hc)) T T') as [Heq Hw].
  rewrite <- Heq.
  destruct (process_map (fun t => _run_trials E t T bs keys) items w) as [[e|ys] w1];
    simpl in *; by subst.
Qed.

(** X8.  When every combination of the grid has a cache artifact, the
    build step makes no outside call and reads no clock: it either raises
    with the world unchanged or only writes the table; and the requested
    trial count has no effect on what it returns. *)
Theorem build_warm_cache bs T path test w datasets :
  build_datasets E test = inr datasets ->
  (forall c, In c (itt_product datasets _get_settings) ->
             is_Some (files w !! cache_path E c)) ->
  (forall T', _build E bs T' path test w = _build E bs T path test w) /\
  match _build E bs T path test w with
  | (inl _, w') => w' = w
  | (inr df, w') =>
      w' = {| files := <[path := to_csv E df]> (files w);
              trace := trace w ++ [EvWrite path (to_csv E df)];
              ticks := ticks w |}
  end.
Proof.
  intros Hds Hwarm.
  pose proof (process_map_warm bs (kwargs_keys_of _get_settings) _ w Hwarm) as Hpm.
  split.
  - intros T'. unfold _build, bind, lift. rewrite Hds.
    by destruct (Hpm T' T) as [-> _].
  - unfold _build, bind, lift. rewrite Hds.
    destruct (Hpm T T) as [_ Hw].
    destruct (process_map _ _ w) as [[e|results] w1]; simpl in Hw; subst w1; [done|].
    destruct (pd_DataFrame _ _) as [e|df]; [done|].
    reflexivity.
Qed.

Lemma runs_in_order_files T bs keys items results w w1 :
  runs_in_order (fun t => _run_trials E t T bs keys) items results w w1 ->
  forall p, (forall c, In c items -> p <> cache_path E c) ->
            files w1 !! p = files w !! p.
Proof.
  induction 1 as [|x xs y ys w wa w1 Hx Hruns IH]; intros p Hp; [done|].
  rewrite IH by (intros c Hc; apply Hp; by right).
  apply run_trials_files in Hx as [->|[_ [text ->]]]; [done|].
  rewrite lookup_insert_ne; [done|]. intros <-. by eapply Hp; [left|].
Qed.

(** After a run over combinations that had no artifact, a second run in
    any world that holds the artifacts the first one left returns the same
    results without computing. *)
Lemma runs_cold_then_warm T T' bs keys items results w w1 :
  (forall rows, json_loads E (json_dumps E rows) = inr rows) ->
  runs_in_order (fun t => _run_trials E t T bs keys) items results w w1 ->
  NoDup (cache_path E <$> items) ->
  (forall c, In c items -> files w !! cache_path E c = None) ->
  forall w2,
    (forall c, In c items -> files w2 !! cache_path E c = files w1 !! cache_path E c) ->
    process_map (fun t => _run_trials E t T' bs keys) items w2 = (inr results, w2).
Proof.
  intros Hcodec Hruns.
  induction Hruns as [|x xs y ys w wa w1 Hx Hruns IH]; intros Hnd Hcold w2 Hw2; [done|].
  apply NoDup_cons in Hnd as [Hnx Hnd].
  assert (Hpx : forall c, In c xs -> cache_path E x <> cache_path E c).
  { intros c Hc Heq. apply Hnx. rewrite Heq.
    apply list_elem_of_fmap_2. by apply list_elem_of_In. }
  pose proof (run_trials_miss E x T bs keys w _ _ (Hcold x (or_introl eq_refl)) Hx) as H.
  simpl in H. destruct H as (ds & evs & _ & _ & Hf & _).
  assert (Hart : files w2 !! cache_path E x = Some (json_dumps E y)).
  { rewrite (Hw2 x (or_introl eq_refl)),
            (runs_in_order_files _ _ _ _ _ _ _ Hruns _ Hpx), Hf.
    apply lookup_insert_eq. }
  simpl. unfold bind.
  rewrite (run_trials_hit E x T' bs keys w2 _ Hart), Hcodec.
  rewrite IH; [done|done| |].
  - intros c Hc. rewrite Hf, lookup_insert_ne; [apply Hcold; by right|]. by apply Hpx.
  - intros c Hc. apply Hw2. by right.
Qed.

(** X9.  With a text format that decodes what it encoded and a registry of
    pairwise different names, a build from a runs directory without
    artifacts followed by a second build (with any trial count) gives the
    same table the second time, and the second build does nothing but
    write that table again. *)
Theorem build_twice_same_table bs T T' path test w df w' :
  (forall rows, json_loads E (json_dumps E rows) = inr rows) ->
  NoDup (List.map ds__name__ (dataset_resolver E)) ->
  (forall c, path <> cache_path E c) ->
  (forall c, files w !! cache_path E c = None) ->
  _build E bs T path test w = (inr df, w') ->
  _build E bs T' path test w' =
    (inr df, {| files := files w';
                trace := trace w' ++ [EvWrite path (to_csv E df)];
                ticks := ticks w' |}).
Proof.
  intros Hcodec Hnames Hpath Hcold Hb.
  apply build_success_spec in Hb as (datasets & results & w1 & Hds & Hruns & Hdf & ->).
  assert (Hpm : process_map (fun t => _run_trials E t T' bs (kwargs_keys_of _get_settings))
                  (itt_product datasets _get_settings)
                  {| files := <[path := to_csv E df]> (files w1);
                     trace := trace w1 ++ [EvWrite path (to_csv E df)];
                     ticks := ticks w1 |}
                = (inr results,
                   {| files := <[path := to_csv E df]> (files w1);
                      trace := trace w1 ++ [EvWrite path (to_csv E df)];
                      ticks := ticks w1 |})).
  { eapply (runs_cold_then_warm T T'); try done.
    - apply NoDup_fmap_2_strong.
      + intros c1 c2 Hc1%list_elem_of_In Hc2%list_elem_of_In Hp.
        apply (cache_path_inj_on_grid E datasets); try done.
        by eapply build_datasets_names.
      + apply itt_product_NoDup.
        * eapply build_datasets_NoDup; [|done]. by eapply NoDup_fmap_1.
        * apply (bool_decide_unpack _). vm_compute. exact I.
    - intros c _. simpl. by rewrite lookup_insert_ne. }
  unfold _build, bind, lift. rewrite Hds, Hpm, Hdf.
  unfold write_text, ret. simpl. by rewrite insert_insert_eq.
Qed.

End CacheReuse.

Section Datasets.
Context (E : Externals).

Local Instance key_le_trans : Transitive key_le.
Proof. unfold key_le. intros a b c. lia. Qed.

Lemma Sorted_impl {A : Type} (R1 R2 : A -> A -> Prop) l :
  (forall a b, R1 a b -> R2 a b) -> Sorted R1 l -> Sorted R2 l.
Proof.
  intros HR. induction 1 as [|x l Hl IH Hhd]; constructor; [done|].
  destruct Hhd; constructor. by apply HR.
Qed.

Lemma sorted_registry_Sorted :
  StronglySorted key_le (py_sorted_by Z.leb triples_sort_key (dataset_resolver E)).
Proof.
  apply Sorted_StronglySorted; [apply _|].
  unfold py_sorted_by.
  eapply Sorted_impl;
    [|apply (py_sorted_Sorted
               (fun x y : dataset_cls => triples_sort_key x <=? triples_sort_key y))].
  - intros a b H. by apply Z.leb_le in H.
  - intros a b. rewrite !Z.leb_le. lia.
Qed.

Lemma sorted_registry_perm :
  py_sorted_by Z.leb triples_sort_key (dataset_resolver E) ≡ₚ dataset_resolver E.
Proof. apply py_sorted_perm. Qed.

Lemma list_index_absent {A : Type} `{EqDecision A} (x : A) l :
  x ∉ l -> list_index x l = inl (PyExc "ValueError").
Proof.
  induction l as [|y l IH]; simpl; [done|].
  intros [Hne Hl]%not_elem_of_cons.
  destruct (decide (y = x)); [done|]. by rewrite IH.
Qed.

Lemma list_index_present {A : Type} `{EqDecision A} (x : A) l :
  x ∈ l -> exists i, list_index x l = inr i /\ l !! i = Some x /\ x ∉ take i l.
Proof.
  induction l as [|y l IH]; simpl; [by inversion 1|].
  intros Hin. destruct (decide (y = x)) as [->|Hne].
  - exists 0%nat. repeat split. simpl. apply not_elem_of_nil.
  - apply elem_of_cons in Hin as [?|Hin]; [done|].
    destruct (IH Hin) as (i & -> & Hi & Hfirst).
    exists (S i). repeat split; [done|]. simpl.
    apply not_elem_of_cons. done.
Qed.

(** X10.  In test mode the dataset selection never fails and keeps the
    five datasets of smallest sort key (all of them when there are fewer),
    in ascending order. *)
Theorem build_datasets_test_mode :
  exists kept rest,
    build_datasets E true = inr kept /\
    List.length kept = Nat.min 5 (List.length (dataset_resolver E)) /\
    kept ++ rest ≡ₚ dataset_resolver E /\
    StronglySorted key_le kept /\
    forall a b, In a kept -> In b rest -> key_le a b.
Proof.
  pose proof sorted_registry_Sorted as Hs.
  exists (take 5 (py_sorted_by Z.leb triples_sort_key (dataset_resolver E))),
         (drop 5 (py_sorted_by Z.leb triples_sort_key (dataset_resolver E))).
  rewrite <- (take_drop 5 (py_sorted_by _ _ _)) in Hs.
  split; [done|]. split; [|split; [|split]].
  - rewrite length_take. by rewrite sorted_registry_perm.
  - rewrite take_drop. apply sorted_registry_perm.
  - by eapply StronglySorted_app_1_l.
  - intros a b Ha%list_elem_of_In Hb%list_elem_of_In.
    by eapply StronglySorted_app_1_elem_of.
Qed.

(** X11.  Outside test mode a successful dataset selection ends with the
    cutoff dataset, which occurs only there; the selection is in ascending
    order of the sort key, nothing in it is larger than the cutoff, and
    nothing left out is smaller. *)
Theorem build_datasets_cutoff datasets :
  build_datasets E false = inr datasets ->
  exists cutoff smaller rest,
    resolver_lookup E "FB15k-237" = inr cutoff /\
    datasets = smaller ++ [cutoff] /\
    ~ In cutoff smaller /\
    datasets ++ rest ≡ₚ dataset_resolver E /\
    StronglySorted key_le datasets /\
    (forall a, In a datasets -> key_le a cutoff) /\
    (forall b, In b rest -> key_le cutoff b).
Proof.
  unfold build_datasets.
  destruct (resolver_lookup E "FB15k-237") as [e|cutoff]; [done|].
  set (sorted := py_sorted_by Z.leb triples_sort_key (dataset_resolver E)).
  destruct (decide (cutoff ∈ sorted)) as [Hin|Hout];
    [|by rewrite (list_index_absent _ _ Hout)].
  destruct (list_index_present _ _ Hin) as (i & -> & Hi & Hfirst).
  intros ?; simplify_eq.
  pose proof sorted_registry_Sorted as Hs. fold sorted in Hs.
  assert (Htake : take (1 + i) sorted = take i sorted ++ [cutoff]).
  { change (1 + i)%nat with (S i). by erewrite take_S_r. }
  exists cutoff, (take i sorted), (drop (1 + i) sorted).
  rewrite <- (take_drop (1 + i) sorted) in Hs.
  split; [done|]. split; [done|]. split; [by rewrite <- list_elem_of_In|].
  split; [rewrite take_drop; apply sorted_registry_perm|].
  split; [by eapply StronglySorted_app_1_l|].
  split.
  - intros a Ha%list_elem_of_In. rewrite Htake in Ha.
    apply elem_of_app in Ha as [Ha|Ha%list_elem_of_singleton]; [|subst; by unfold key_le].
    apply StronglySorted_app_1_l in Hs. rewrite Htake in Hs.
    eapply StronglySorted_app_1_elem_of; [exact Hs|done|by apply list_elem_of_singleton].
  - intros b Hb%list_elem_of_In.
    eapply StronglySorted_app_1_elem_of; [exact Hs| |done].
    rewrite Htake. apply elem_of_app. right. by apply list_elem_of_singleton.
Qed.

(** X12.  Outside test mode the dataset selection raises exactly when the
    lookup of the cutoff raises (the same error) or the cutoff is not in
    the registry (a value error); in test mode it never raises. *)
Theorem build_datasets_failures :
  (exists kept, build_datasets E true = inr kept) /\
  (forall e, resolver_lookup E "FB15k-237" = inl e -> build_datasets E false = inl e) /\
  (forall cutoff,
      resolver_lookup E "FB15k-237" = inr cutoff ->
      ~ In cutoff (dataset_resolver E) ->
      build_datasets E false = inl (PyExc "ValueError")) /\
  (forall cutoff,
      resolver_lookup E "FB15k-237" = inr cutoff ->
      In cutoff (dataset_resolver E) ->
      exists datasets, build_datasets E false = inr datasets /\ In cutoff datasets).
Proof.
  unfold build_datasets. split; [eauto|]. split; [by intros e ->|]. split.
  - intros cutoff -> Hout. rewrite list_index_absent; [done|].
    unfold py_sorted_by. rewrite py_sorted_perm. by rewrite list_elem_of_In.
  - intros cutoff -> Hin.
    assert (Hin' : cutoff ∈ py_sorted_by Z.leb triples_sort_key (dataset_resolver E)).
    { unfold py_sorted_by. rewrite py_sorted_perm. by apply list_elem_of_In. }
    destruct (list_index_present _ _ Hin') as (i & -> & Hi & _).
    eexists. split; [done|].
    apply list_elem_of_In, elem_of_take. exists i. split; [done|lia].
Qed.

End Datasets.

Section Labels.

(** X13.  For boolean flags the label of a model determines both flags,
    whether a threshold is shown, and the text of a shown threshold. *)
Theorem relabel_model_injective model e1 r1 t1 e2 r2 t2 :
  _relabel_model model (PBool e1) (PBool r1) t1
  = _relabel_model model (PBool e2) (PBool r2) t2 ->
  e1 = e2 /\ r1 = r2 /\
  threshold_shown t1 = threshold_shown t2 /\
  (threshold_shown t1 = true -> py_format t1 = py_format t2).
Proof.
  unfold _relabel_model. fold (threshold_shown t1) (threshold_shown t2).
  intros H.
  destruct e1, e2, r1, r2, (threshold_shown t1), (threshold_shown t2);
    rewrite ?string_app_assoc in H;
    apply (inj (String.append _)) in H;
    rewrite ?string_app_cons, ?string_app_nil in H;
    try done;
    simplify_eq;
    repeat split; try done; intros _.
  all: match goal with H : _ +:+ ")" = _ +:+ ")" |- _ =>
         by apply string_app_inv_tail in H as [? _] end.
Qed.

(** X14.  The rows of a configuration whose three parameters are all
    missing ([None], not-a-number or undefined) are labelled with the bare
    model name. *)
Theorem relabel_model_bare_name model (kw : pydict) :
  (forall key, In key ["entity_margin"; "relation_margin"; "threshold"] ->
               pd_isna (dict_get kw key) = true) ->
  _relabel_model model
    (_clean (dict_get kw "entity_margin"))
    (_clean (dict_get kw "relation_margin"))
    (_clean (dict_get kw "threshold"))
  = model.
Proof.
  intros H.
  assert (Hc : forall key, In key ["entity_margin"; "relation_margin"; "threshold"] ->
                           _clean (dict_get kw key) = PStr "").
  { intros key Hk. unfold _clean. rewrite (H key Hk). by rewrite orb_true_r. }
  rewrite !Hc by (simpl; tauto). reflexivity.
Qed.

(** X15.  The cleaning of a cell never returns a missing value, changes
    nothing when applied twice, keeps every value that is not missing and
    turns every missing one into the empty string. *)
Theorem clean_never_missing x :
  pd_isna (_clean x) = false /\
  _clean (_clean x) = _clean x /\
  (pd_isna x = false -> _clean x = x) /\
  (pd_isna x = true -> _clean x = PStr "").
Proof. destruct x as [|[]| |[|[]|]|]; done. Qed.

Lemma hex_digit_hex d : 0 <= d < 16 -> hex_char (SHA256.hex_digit d) = true.
Proof.
  intros Hd. unfold SHA256.hex_digit.
  assert (Hn : (Z.to_nat d < 16)%nat) by lia.
  generalize dependent (Z.to_nat d). intros n Hn.
  do 16 (destruct n as [|n]; [reflexivity|]). lia.
Qed.

Lemma all_hex_of_list l :
  Forall (fun c => hex_char c = true) l -> all_hex (string_of_list_ascii l) = true.
Proof. induction 1 as [|c l Hc _ IH]; simpl; [done|]. by rewrite Hc, IH. Qed.

Lemma hexdigest_hex msg : all_hex (SHA256.hexdigest msg) = true.
Proof.
  unfold SHA256.hexdigest. apply all_hex_of_list, Forall_concat, Forall_forall.
  intros l (x & <- & _)%list_elem_of_In%List.in_map_iff.
  unfold SHA256.hex_word. apply Forall_forall.
  intros c (i & <- & _)%list_elem_of_In%List.in_map_iff.
  apply hex_digit_hex. apply Z.mod_pos_bound. lia.
Qed.

Lemma all_hex_take n : forall s, all_hex s = true -> all_hex (PyStr.take n s) = true.
Proof.
  induction n as [|n IH]; intros [|c s]; simpl; try done.
  intros [Hc Hs]%andb_true_iff. by rewrite Hc, IH.
Qed.

(** X16.  The cache key of every parameter mapping is made of eight
    lower-case hexadecimal digits. *)
Theorem kwargs_hash_hex (model_kwargs : pydict) :
  String.length (kwargs_hash model_kwargs) = 8%nat /\
  all_hex (kwargs_hash model_kwargs) = true.
Proof.
  split; [apply kwargs_hash_length|].
  unfold kwargs_hash. apply all_hex_take, hexdigest_hex.
Qed.

End Labels.

Section RecordContent.
Context (E : Externals).

Lemma run_one_trial_content ds base cls kw name T bs keys trial records w recs w' :
  T <> 0 ->
  run_one_trial E ds base cls kw name T bs keys trial records w = (inr recs, w') ->
  ticks w' = S (S (ticks w)) /\
  exists res,
    trial_evaluation E ds cls kw bs trial = inr res /\
    recs = records ++ [trial_record E base name kw keys (ticks w) trial res].
Proof.
  intros HT. apply Z.eqb_neq in HT.
  unfold run_one_trial, _evaluate_baseline, trial_evaluation, trial_record,
    bind, log, lift, ret, raise, time_time.
  rewrite HT. simpl. intros H.
  repeat (case_match; simplify_eq/=).
  split; [done|]. eauto.
Qed.

Lemma trial_loop_content ds base cls kw name T bs keys xs :
  T <> 0 ->
  forall records w recs w',
    for_each xs (run_one_trial E ds base cls kw name T bs keys) records w = (inr recs, w') ->
    exists new,
      recs = records ++ new /\
      List.length new = List.length xs /\
      forall k trial, xs !! k = Some trial ->
        exists res,
          trial_evaluation E ds cls kw bs trial = inr res /\
          new !! k = Some (trial_record E base name kw keys (ticks w + 2 * k) trial res).
Proof.
  intros HT. induction xs as [|x xs IH]; intros records w recs w' H; simpl in H.
  - unfold ret in H. simplify_eq. exists []. split; [by rewrite List.app_nil_r|]. split; [done|]. intros k trial Hk. by rewrite lookup_nil in Hk.
  - unfold bind in H.
    destruct (run_one_trial E ds base cls kw name T bs keys x records w)
      as [[e|recs1] w1] eqn:H1; [done|].
    apply run_one_trial_content in H1 as (Hk & res0 & Hres0 & ->); [|done].
    apply IH in H as (new & -> & Hlen & Hnew).
    exists (trial_record E base name kw keys (ticks w) x res0 :: new).
    split; [by rewrite <- List.app_assoc|]. split; [simpl; by rewrite Hlen|].
    intros [|k] trial Hx; simpl in Hx.
    + simplify_eq. exists res0. split; [done|].
      replace (ticks w + 2 * 0)%nat with (ticks w) by lia. reflexivity.
    + destruct (Hnew k trial Hx) as (res & Hres & Hrow).
      exists res. split; [done|].
      replace (ticks w + 2 * S k)%nat with (ticks w1 + 2 * k)%nat by lia.
      exact Hrow.
Qed.

(** X17.  The i-th record of a computing run holds the name and the counts
    of the dataset as constructed (not of the remix), the index i, the
    model name, the cleaned parameter values, the difference of the two
    clock readings taken around the evaluation, and the metrics of
    evaluating the model built on the remix with seed i. *)
Theorem run_trials_record_content t T bs keys w records w' :
  files w !! cache_path E t = None ->
  _run_trials E t T bs keys w = (inr records, w') ->
  exists ds,
    dataset_new E (fst t) = inr ds /\
    forall i r, records !! i = Some r ->
      exists res,
        trial_evaluation E ds (fst (snd t)) (snd (snd t)) bs (Z.of_nat i) = inr res /\
        r = trial_record E (base_record_of (fst t) ds) (model_name_of (fst (snd t)))
              (snd (snd t)) keys (ticks w + 2 * i) (Z.of_nat i) res.
Proof.
  intros Hmiss. destruct t as [d [c kw]].
  unfold _run_trials, bind, path_exists.
  rewrite bool_decide_eq_false_2 by (rewrite Hmiss; by intros [? ?]).
  unfold log at 1, lift at 1. simpl.
  destruct (dataset_new E d) as [e|ds] eqn:Hds; [done|].
  match goal with |- context [for_each ?xs ?body ?acc ?w0] =>
    destruct (for_each xs body acc w0) as [[e|recs] w1] eqn:Hloop end; [done|].
  unfold write_text, ret. intros ?; simplify_eq.
  exists ds. split; [done|]. intros i r Hi.
  destruct (Z_le_gt_dec T 0) as [HT|HT].
  { rewrite py_range_nonpos in Hloop by done. simpl in Hloop.
    unfold ret in Hloop. by simplify_eq. }
  apply trial_loop_content in Hloop as (new & -> & Hlen & Hnew); [|lia].
  simpl in Hi, Hnew.
  assert (Hi' : (i < List.length (py_range T))%nat)
    by (rewrite <- Hlen; by eapply lookup_lt_Some).
  assert (Hrange : py_range T !! i = Some (Z.of_nat i)).
  { destruct (lookup_lt_is_Some_2 _ _ Hi') as [trial Htrial]. rewrite Htrial.
    unfold py_range in Htrial. change (List.map Z.of_nat ?l) with (Z.of_nat <$> l) in Htrial.
    rewrite list_lookup_fmap in Htrial.
    destruct (List.seq 0 (Z.to_nat T) !! i) as [j|] eqn:Hj; [|done].
    apply lookup_seq in Hj as [-> _]. simpl in Htrial. by simplify_eq. }
  destruct (Hnew i _ Hrange) as (res & Hres & Hrow).
  exists res. split; [done|]. rewrite Hi in Hrow. by simplify_eq.
Qed.

End RecordContent.

Lemma pos_of_text_of_pos p : Codec.pos_of_text (Codec.text_of_pos p) = Some p.
Proof. induction p as [p IH|p IH|]; simpl; by rewrite ?IH. Qed.

Lemma codec_round_trip rows : Codec.loads (Codec.dumps rows) = inr rows.
Proof.
  unfold Codec.loads, Codec.dumps. rewrite pos_of_text_of_pos. simpl.
  by rewrite decode_encode.
Qed.

(** ** These theorems at work on the demo environments *)

Lemma run_trials_frame_witness :
  files (snd (_run_trials Demo.E Demo.combination 2 2048 ["threshold"] Demo.results_world))
    !! BENCHMARK_PATH Demo.E = Some "dataset".
Proof.
  destruct (_run_trials Demo.E Demo.combination 2 2048 ["threshold"] Demo.results_world)
    as [r w'] eqn:Hrun.
  destruct (run_trials_frame Demo.E _ _ _ _ _ _ _ Hrun) as [_ Hframe].
  simpl. rewrite Hframe; [vm_compute; reflexivity|].
  intros H. by destruct (cache_path_not_results Demo.E Demo.combination) as [? _].
Defined.

Lemma run_trials_call_sequence_witness :
  trace (snd (_run_trials Demo.E Demo.combination 2 2048 ["threshold"] Demo.empty_world))
  = [ EvDataset Demo.nations;
      EvRemix 0;
      EvModel SoftInverseTripleBaseline [("threshold", PFloat (FFinite "0.1"))];
      EvEvaluate 2048;
      EvRemix 1;
      EvModel SoftInverseTripleBaseline [("threshold", PFloat (FFinite "0.1"))];
      EvEvaluate 2048;
      EvWrite (cache_path Demo.E Demo.combination)
        (json_dumps Demo.E
           (match fst (_run_trials Demo.E Demo.combination 2 2048 ["threshold"]
                         Demo.empty_world) with
            | inr records => records
            | inl _ => []
            end)) ].
Proof.
  destruct (_run_trials Demo.E Demo.combination 2 2048 ["threshold"] Demo.empty_world)
    as [[e|records] w'] eqn:Hrun; [by vm_compute in Hrun|].
  apply (run_trials_call_sequence Demo.E) in Hrun as [Htrace _];
    [exact Htrace | vm_compute; reflexivity].
Defined.

Lemma run_trials_missing_validation_witness :
  fst (_run_trials Demo.E_unvalidated Demo.combination 3 2048 ["threshold"] Demo.empty_world)
  = inl (PyExc "AssertionError").
Proof.
  rewrite (run_trials_missing_validation Demo.E_unvalidated Demo.combination 3 2048
             ["threshold"] Demo.empty_world (Demo.loaded 1992)
             {| training := Demo.factory 1992; validation := None;
                testing := Demo.factory 1 |}
             SoftInverseTripleBaseline);
    first [lia | vm_compute; reflexivity].
Defined.

Lemma run_trials_nonpositive_trials_witness :
  fst (_run_trials Demo.E Demo.combination (-3) 2048 ["threshold"] Demo.empty_world) = inr [].
Proof.
  rewrite (run_trials_nonpositive_trials Demo.E Demo.combination (-3) 2048 ["threshold"]
             Demo.empty_world (Demo.loaded 1992));
    first [lia | vm_compute; reflexivity].
Defined.

Lemma build_failure_adds_artifacts_only_witness :
  files (snd (_build Demo.E_failing 2048 1 (BENCHMARK_PATH Demo.E_failing) false
                Demo.results_world))
    !! BENCHMARK_PATH Demo.E_failing = Some "dataset".
Proof.
  assert (Hb : _build Demo.E_failing 2048 1 (BENCHMARK_PATH Demo.E_failing) false
                 Demo.results_world
               = (inl (PyExc "RuntimeError"),
                  snd (_build Demo.E_failing 2048 1 (BENCHMARK_PATH Demo.E_failing) false
                         Demo.results_world)))
    by (vm_compute; reflexivity).
  destruct (build_failure_adds_artifacts_only Demo.E_failing _ _ _ _ _ _ _ Hb)
    as [_ Hframe].
  clear Hb. rewrite Hframe; [vm_compute; reflexivity|].
  intros c H. by destruct (cache_path_not_results Demo.E_failing c) as [? _].
Defined.


Lemma build_twice_same_table_witness :
  fst (_build Demo.E_codec 2048 7 (BENCHMARK_PATH Demo.E_codec) false (snd Demo.first_build))
  = inr Demo.first_table.
Proof.
  assert (Hnames : NoDup (List.map ds__name__ (dataset_resolver Demo.E_codec)))
    by (apply (bool_decide_unpack _); vm_compute; exact I).
  assert (Hpath : forall c, BENCHMARK_PATH Demo.E_codec <> cache_path Demo.E_codec c)
    by (intros c H; by destruct (cache_path_not_results Demo.E_codec c) as [? _]).
  assert (Hcold : forall c, files Demo.empty_world !! cache_path Demo.E_codec c = None)
    by (intros c; apply lookup_empty).
  assert (Hb : _build Demo.E_codec 2048 1 (BENCHMARK_PATH Demo.E_codec) false
                 Demo.empty_world
               = (inr Demo.first_table, snd Demo.first_build))
    by (vm_compute; reflexivity).
  pose proof (build_twice_same_table Demo.E_codec 2048 1 7 (BENCHMARK_PATH Demo.E_codec)
                false Demo.empty_world Demo.first_table (snd Demo.first_build)
                codec_round_trip Hnames Hpath Hcold Hb) as Hagain.
  clear Hb. rewrite Hagain. reflexivity.
Defined.

Lemma build_warm_cache_witness :
  _build Demo.E_codec 2048 7 (BENCHMARK_PATH Demo.E_codec) false (snd Demo.first_build)
  = _build Demo.E_codec 2048 1 (BENCHMARK_PATH Demo.E_codec) false (snd Demo.first_build).
Proof.
  assert (Hds : build_datasets Demo.E_codec false
                = inr [Demo.nations; Demo.kinships; Demo.fb15k237])
    by (vm_compute; reflexivity).
  assert (Hwarm : forall c,
             In c (itt_product [Demo.nations; Demo.kinships; Demo.fb15k237] _get_settings) ->
             is_Some (files (snd Demo.first_build) !! cache_path Demo.E_codec c)).
  { apply List.Forall_forall, (bool_decide_unpack _). vm_compute. exact I. }
  destruct (build_warm_cache Demo.E_codec 2048 1 (BENCHMARK_PATH Demo.E_codec) false
              (snd Demo.first_build) _ Hds Hwarm) as [Hsame _].
  exact (Hsame 7).
Defined.

Lemma build_datasets_cutoff_witness :
  exists cutoff smaller rest,
    resolver_lookup Demo.E "FB15k-237" = inr cutoff /\
    [Demo.nations; Demo.kinships; Demo.fb15k237] = smaller ++ [cutoff] /\
    ~ In cutoff smaller /\
    [Demo.nations; Demo.kinships; Demo.fb15k237] ++ rest ≡ₚ dataset_resolver Demo.E /\
    StronglySorted key_le [Demo.nations; Demo.kinships; Demo.fb15k237] /\
    (forall a, In a [Demo.nations; Demo.kinships; Demo.fb15k237] -> key_le a cutoff) /\
    (forall b, In b rest -> key_le cutoff b).
Proof.
  apply (build_datasets_cutoff Demo.E). vm_compute; reflexivity.
Defined.

Lemma build_datasets_failures_witness :
  build_datasets Demo.E_empty false = inl (PyExc "KeyError") /\
  exists datasets, build_datasets Demo.E false = inr datasets /\ In Demo.fb15k237 datasets.
Proof.
  split.
  - destruct (build_datasets_failures Demo.E_empty) as (_ & Hlookup & _).
    by apply Hlookup.
  - destruct (build_datasets_failures Demo.E) as (_ & _ & _ & Hok).
    apply Hok; [reflexivity | simpl; tauto].
Defined.

Lemma relabel_model_injective_witness :
  threshold_shown (PFloat (FFinite "0.1")) = threshold_shown (PStr "0.1") /\
  py_format (PFloat (FFinite "0.1")) = py_format (PStr "0.1").
Proof.
  destruct (relabel_model_injective "SoftInverseTriple" true false (PFloat (FFinite "0.1"))
              true false (PStr "0.1") eq_refl) as (_ & _ & Hshown & Htext).
  split; [exact Hshown | by apply Htext].
Defined.

Lemma relabel_model_bare_name_witness :
  _relabel_model "SoftInverseTriple"
    (_clean (dict_get [("threshold", PNone)] "entity_margin"))
    (_clean (dict_get [("threshold", PNone)] "relation_margin"))
    (_clean (dict_get [("threshold", PNone)] "threshold"))
  = "SoftInverseTriple".
Proof.
  apply relabel_model_bare_name.
  intros key [<-|[<-|[<-|[]]]]; reflexivity.
Defined.

Lemma clean_never_missing_witness :
  _clean (PFloat FNaN) = PStr "" /\ _clean (PBool false) = PBool false.
Proof.
  split.
  - by apply (clean_never_missing (PFloat FNaN)).
  - by apply (clean_never_missing (PBool false)).
Defined.

Lemma build_empty_registry_witness :
  exists e, _build Demo.E_empty 2048 3 (BENCHMARK_PATH Demo.E_empty) false Demo.empty_world
            = (inl e, Demo.empty_world).
Proof. by apply (build_empty_registry Demo.E_empty). Defined.

Lemma run_trials_record_content_witness :
  exists res,
    trial_evaluation Demo.E (Demo.loaded 1992) SoftInverseTripleBaseline
      [("threshold", PFloat (FFinite "0.1"))] 2048 1 = inr res /\
    (match fst (_run_trials Demo.E Demo.combination 2 2048 ["threshold"]
                  Demo.empty_world) with
     | inr records => records
     | inl _ => []
     end) !! 1%nat
    = Some (trial_record Demo.E (base_record_of Demo.nations (Demo.loaded 1992))
              "SoftInverseTriple" [("threshold", PFloat (FFinite "0.1"))] ["threshold"]
              2 1 res).
Proof.
  assert (Hmiss : files Demo.empty_world !! cache_path Demo.E Demo.combination = None)
    by (vm_compute; reflexivity).
  destruct (_run_trials Demo.E Demo.combination 2 2048 ["threshold"] Demo.empty_world)
    as [[e|records] w'] eqn:Hrun; [by vm_compute in Hrun|].
  destruct (run_trials_record_content Demo.E _ _ _ _ _ _ _ Hmiss Hrun)
    as (ds & Hds & Hrows).
  vm_compute in Hds. injection Hds as <-.
  vm_compute in Hrun. injection Hrun as <- _.
  destruct (Hrows 1%nat _ eq_refl) as (res & Hres & Hrow).
  exists res. split; [exact Hres|]. exact (f_equal Some Hrow).
Defined.
